(** * Mock trading engine: a shallow embedding of [src/app.py]

    The development models the class [MockTradingBot]: its attributes are
    the fields of the record [bot], its methods are functions on [bot].

    Modelling conventions.
    - Python [float] values (cash, prices, profit) are exact rationals [Q];
      rounding, infinities and NaN are abstracted away, so equalities
      between amounts are stated with [==].  A float division by zero
      still raises, as in Python.
    - Python [int] values (share counts, action codes, limits) are [Z].
    - Every read of the outside world is an explicit argument:
      [datetime.now().isoformat()] is a [string] handed in by the caller,
      [random.random()], [random.gauss(..)] and [random.randint(..)] are
      numbers handed in by the caller.
    - [print] calls have no effect on the object and are left out.
    - The background thread is represented by its interleaving with the
      API calls: a run is a list of [call]s, among them the statements of
      [trading_loop].  One iteration of the loop is such a run
      ([trading_loop_step_run]). *)

From Stdlib Require Import QArith Qround Lqa ZArith Lia.
From stdpp Require Import gmap strings list pretty.

Local Open Scope Q_scope.

(** ** Python primitives *)

Inductive exn := ZeroDivisionError.

Inductive result (A : Type) :=
| Ok (a : A)
| Raise (e : exn).
Arguments Ok {A} a.
Arguments Raise {A} e.

#[global] Instance result_bind : MBind result := fun A B k r =>
  match r with
  | Ok a => k a
  | Raise e => Raise e
  end.

(** [x / y] on floats. *)
Definition py_div (x y : Q) : result Q :=
  if Qeq_bool y 0 then Raise ZeroDivisionError else Ok (x / y).

(** [int(x)]: truncation toward zero. *)
Definition py_int (x : Q) : Z := Z.quot (Qnum x) (Zpos (Qden x)).

(** [x < y] on floats, as a boolean. *)
Definition Qltb (x y : Q) : bool := negb (Qle_bool y x).

(** [l[start:]], with CPython's clamping of the start index. *)
Definition py_slice_from {A} (start : Z) (l : list A) : list A :=
  let len := Z.of_nat (length l) in
  let lo := if (start <? 0)%Z then Z.max (len + start) 0 else Z.min start len in
  drop (Z.to_nat lo) l.

(** ** Data model *)

Inductive status := stopped | initialized | active.

Inductive action_label := HOLD | BUY | SELL.

(** Values of the configuration mapping (JSON scalars). *)
Inductive cfg_value :=
| CfgStr (s : string)
| CfgNum (q : Q).

(** The dict under ['current_position']. *)
Record position := {
  qty : Z;
  avg_entry_price : Q;
  pos_current_price : Q;
  market_value : Q;
  unrealized_pl : Q
}.

(** The dict [bot_state]. *)
Record snapshot := {
  st_status : status;
  current_position : option position;
  portfolio_value : Q;
  st_cash : Q;
  total_pl : Q;
  total_pl_pct : Q;
  last_update : option string;
  last_action : action_label;
  market_open : bool
}.

(** An element of [trade_history]; ['profit'] is present on SELL only. *)
Record trade := {
  tr_timestamp : string;
  tr_action : action_label;
  tr_shares : Z;
  tr_price : Q;
  order_id : string;
  profit : option Q
}.

(** An element of [performance_history]. *)
Record sample := {
  sm_timestamp : string;
  sm_portfolio_value : Q;
  sm_cash : Q;
  position_value : Q
}.

(** The attributes of a [MockTradingBot]. [bot_thread] holds the ordinal
    of the thread object last stored there. *)
Record bot := {
  bot_thread : option nat;
  is_running : bool;
  initial_value : Z;
  cash : Q;
  shares_held : Z;
  current_price : Q;
  bot_state : snapshot;
  trade_history : list trade;
  performance_history : list sample;
  config : gmap string cfg_value
}.

(** [MockTradingBot.__init__] *)
Definition init : bot := {|
  bot_thread := None;
  is_running := false;
  initial_value := 10000;
  cash := 10000;
  shares_held := 0;
  current_price := 175.0;
  bot_state := {|
    st_status := stopped;
    current_position := None;
    portfolio_value := 10000;
    st_cash := 10000;
    total_pl := 0;
    total_pl_pct := 0;
    last_update := None;
    last_action := HOLD;
    market_open := true |};
  trade_history := [];
  performance_history := [];
  config := ∅
|}.

(** *** Attribute assignment *)

Definition set_bot_thread (v : option nat) (s : bot) : bot :=
  {| bot_thread := v; is_running := is_running s;
     initial_value := initial_value s; cash := cash s;
     shares_held := shares_held s; current_price := current_price s;
     bot_state := bot_state s; trade_history := trade_history s;
     performance_history := performance_history s; config := config s |}.

Definition set_is_running (v : bool) (s : bot) : bot :=
  {| bot_thread := bot_thread s; is_running := v;
     initial_value := initial_value s; cash := cash s;
     shares_held := shares_held s; current_price := current_price s;
     bot_state := bot_state s; trade_history := trade_history s;
     performance_history := performance_history s; config := config s |}.

Definition set_cash (v : Q) (s : bot) : bot :=
  {| bot_thread := bot_thread s; is_running := is_running s;
     initial_value := initial_value s; cash := v;
     shares_held := shares_held s; current_price := current_price s;
     bot_state := bot_state s; trade_history := trade_history s;
     performance_history := performance_history s; config := config s |}.

Definition set_shares_held (v : Z) (s : bot) : bot :=
  {| bot_thread := bot_thread s; is_running := is_running s;
     initial_value := initial_value s; cash := cash s;
     shares_held := v; current_price := current_price s;
     bot_state := bot_state s; trade_history := trade_history s;
     performance_history := performance_history s; config := config s |}.

Definition set_current_price (v : Q) (s : bot) : bot :=
  {| bot_thread := bot_thread s; is_running := is_running s;
     initial_value := initial_value s; cash := cash s;
     shares_held := shares_held s; current_price := v;
     bot_state := bot_state s; trade_history := trade_history s;
     performance_history := performance_history s; config := config s |}.

Definition set_bot_state (v : snapshot) (s : bot) : bot :=
  {| bot_thread := bot_thread s; is_running := is_running s;
     initial_value := initial_value s; cash := cash s;
     shares_held := shares_held s; current_price := current_price s;
     bot_state := v; trade_history := trade_history s;
     performance_history := performance_history s; config := config s |}.

Definition set_trade_history (v : list trade) (s : bot) : bot :=
  {| bot_thread := bot_thread s; is_running := is_running s;
     initial_value := initial_value s; cash := cash s;
     shares_held := shares_held s; current_price := current_price s;
     bot_state := bot_state s; trade_history := v;
     performance_history := performance_history s; config := config s |}.

Definition set_performance_history (v : list sample) (s : bot) : bot :=
  {| bot_thread := bot_thread s; is_running := is_running s;
     initial_value := initial_value s; cash := cash s;
     shares_held := shares_held s; current_price := current_price s;
     bot_state := bot_state s; trade_history := trade_history s;
     performance_history := v; config := config s |}.

Definition set_config (v : gmap string cfg_value) (s : bot) : bot :=
  {| bot_thread := bot_thread s; is_running := is_running s;
     initial_value := initial_value s; cash := cash s;
     shares_held := shares_held s; current_price := current_price s;
     bot_state := bot_state s; trade_history := trade_history s;
     performance_history := performance_history s; config := v |}.

(** [self.bot_state['status'] = v] *)
Definition set_status (v : status) (s : bot) : bot :=
  let b := bot_state s in
  set_bot_state
    {| st_status := v; current_position := current_position b;
       portfolio_value := portfolio_value b; st_cash := st_cash b;
       total_pl := total_pl b; total_pl_pct := total_pl_pct b;
       last_update := last_update b; last_action := last_action b;
       market_open := market_open b |} s.

(** [self.bot_state['last_action'] = v] *)
Definition set_last_action (v : action_label) (s : bot) : bot :=
  let b := bot_state s in
  set_bot_state
    {| st_status := st_status b; current_position := current_position b;
       portfolio_value := portfolio_value b; st_cash := st_cash b;
       total_pl := total_pl b; total_pl_pct := total_pl_pct b;
       last_update := last_update b; last_action := v;
       market_open := market_open b |} s.

(** ** Methods *)

(** What the API methods return: [{'success': True, 'message': m}] or
    [{'success': False, 'error': e}]. *)
Inductive response :=
| Success (message : string)
| Failure (error : string).

Definition AlreadyRunning : response := Failure "Bot already running".
Definition NotConfigured : response := Failure "Bot not initialized".
Definition NotRunning : response := Failure "Bot not running".

(** [initialize(config)] *)
Definition initialize (cfg : gmap string cfg_value) (s : bot) : response * bot :=
  (Success "Mock bot initialized", set_status initialized (set_config cfg s)).

(** [simulate_price_movement()], [change_percent] being the value of
    [random.gauss(0.001, 0.015)]. *)
Definition simulate_price_movement (change_percent : Q) (s : bot) : bot :=
  set_current_price (current_price s * (1 + change_percent)) s.

(** [make_trading_decision()], [r] being the value of [random.random()].
    The result is the action code: 0 hold, 1 buy, 2 sell. *)
Definition make_trading_decision (r : Q) (s : bot) : Z :=
  if (shares_held s =? 0)%Z then
    if Qltb r 0.2 then 1%Z else 0%Z
  else
    if Qltb r 0.15 then 2%Z else 0%Z.

(** The f-string [f'mock-{n}']. *)
Definition mock_order_id (n : Z) : string := "mock-" +:+ pretty n.

(** [execute_mock_trade(action)]; [timestamp] is the clock reading and
    [n] the value of [random.randint(1000, 9999)], which is drawn only
    when a trade dict is built.  The divisions are the only raise
    points, and they come before any assignment. *)
Definition execute_mock_trade (timestamp : string) (n : Z) (action : Z)
    (s : bot) : result bot :=
  if (action =? 1)%Z && (shares_held s =? 0)%Z then
    q ← py_div (cash s * 0.95) (current_price s);
    let shares_to_buy := py_int q in
    if (0 <? shares_to_buy)%Z then
      let cost := inject_Z shares_to_buy * current_price s in
      let s1 := set_shares_held shares_to_buy (set_cash (cash s - cost) s) in
      let t := {| tr_timestamp := timestamp; tr_action := BUY;
                  tr_shares := shares_to_buy; tr_price := current_price s1;
                  order_id := mock_order_id n; profit := None |} in
      Ok (set_last_action BUY
            (set_trade_history (trade_history s1 ++ [t]) s1))
    else Ok s
  else if (action =? 2)%Z && (0 <? shares_held s)%Z then
    let revenue := inject_Z (shares_held s) * current_price s in
    basis ← py_div
               (inject_Z (shares_held s)
                * (portfolio_value (bot_state s) - cash s))
               (inject_Z (Z.max (shares_held s) 1));
    let gain := revenue - basis in
    let s1 := set_cash (cash s + revenue) s in
    let t := {| tr_timestamp := timestamp; tr_action := SELL;
                tr_shares := shares_held s1; tr_price := current_price s1;
                order_id := mock_order_id n; profit := Some gain |} in
    Ok (set_shares_held 0
          (set_last_action SELL
             (set_trade_history (trade_history s1 ++ [t]) s1)))
  else Ok (set_last_action HOLD s).

(** [update_state()]; [now1] and [now2] are its two clock readings.  The
    only raise point is the division, before any assignment. *)
Definition update_state (now1 now2 : string) (s : bot) : result bot :=
  let pos_value := inject_Z (shares_held s) * current_price s in
  let pf_value := cash s + pos_value in
  let pl := pf_value - inject_Z (initial_value s) in
  ratio ← py_div pl (inject_Z (initial_value s));
  let pl_pct := ratio * 100 in
  let b := bot_state s in
  let s1 := set_bot_state
    {| st_status := st_status b;
       current_position :=
         if (0 <? shares_held s)%Z then
           Some {| qty := shares_held s;
                   avg_entry_price := current_price s;
                   pos_current_price := current_price s;
                   market_value := pos_value;
                   unrealized_pl :=
                     if (0 <? shares_held s)%Z
                     then pos_value - inject_Z (shares_held s) * current_price s
                     else 0 |}
         else None;
       portfolio_value := pf_value;
       st_cash := cash s;
       total_pl := pl;
       total_pl_pct := pl_pct;
       last_update := Some now1;
       last_action := last_action b;
       market_open := true |} s in
  let h := performance_history s1
           ++ [ {| sm_timestamp := now2; sm_portfolio_value := pf_value;
                   sm_cash := cash s1; position_value := pos_value |} ] in
  Ok (set_performance_history
        (if (1000 <? length h)%nat then py_slice_from (-1000) h else h) s1).

(** What one iteration of [trading_loop] reads from the outside world. *)
Record tick_input := {
  change_percent : Q;
  decision_draw : Q;
  order_draw : Z;
  trade_time : string;
  update_time : string;
  sample_time : string
}.

(** The body of the [while] loop of [trading_loop], with its
    [try]/[except]: an exception ends the iteration and keeps what the
    completed statements assigned. *)
Definition trading_loop_iteration (i : tick_input) (s : bot) : bot :=
  let s1 := simulate_price_movement (change_percent i) (set_status active s) in
  let action := make_trading_decision (decision_draw i) s1 in
  match execute_mock_trade (trade_time i) (order_draw i) action s1 with
  | Raise _ => s1
  | Ok s2 =>
      match update_state (update_time i) (sample_time i) s2 with
      | Raise _ => s2
      | Ok s3 => s3
      end
  end.

(** One test of the loop condition: an iteration while [is_running],
    otherwise the code after the loop. *)
Definition trading_loop_step (i : tick_input) (s : bot) : bot :=
  if is_running s then trading_loop_iteration i s
  else set_status stopped s.

(** [start()]; creating and starting the thread leaves the other
    attributes alone, the loop it runs shows up as later calls of a
    run. *)
Definition start (s : bot) : response * bot :=
  if is_running s then (AlreadyRunning, s)
  else if (size (config s) =? 0)%nat then (NotConfigured, s)
  else
    let next := match bot_thread s with None => O | Some k => S k end in
    (Success "Mock bot started",
     set_bot_thread (Some next) (set_is_running true s)).

(** [stop()]; the bounded [join] leaves the attributes alone. *)
Definition stop (s : bot) : response * bot :=
  if negb (is_running s) then (NotRunning, s)
  else (Success "Mock bot stopped",
        set_status stopped (set_is_running false s)).

(** [get_state()] *)
Definition get_state (s : bot) : snapshot := bot_state s.

(** [get_trades(limit=50)] *)
Definition get_trades (limit : option Z) (s : bot) : list trade :=
  py_slice_from (- default 50%Z limit) (trade_history s).

(** [get_performance(limit=200)] *)
Definition get_performance (limit : option Z) (s : bot) : list sample :=
  py_slice_from (- default 200%Z limit) (performance_history s).

(** ** Runs *)

(** What can happen to the object, in the order in which it takes
    effect: the calls made through the API, the calls made by the loop of
    [trading_loop], and the test of the loop condition, which sets the
    status to active when it enters the body and to stopped when it
    leaves the loop. *)
Inductive call :=
| CallInitialize (cfg : gmap string cfg_value)
| CallStart
| CallStop
| CallSimulatePrice (change : Q)
| CallExecute (timestamp : string) (n : Z) (action : Z)
| CallUpdateState (now1 now2 : string)
| LoopTest.

(** A call that raises leaves the object as it was. *)
Definition recover (r : result bot) (s : bot) : bot :=
  match r with
  | Ok s' => s'
  | Raise _ => s
  end.

Definition step (c : call) (s : bot) : bot :=
  match c with
  | CallInitialize cfg => snd (initialize cfg s)
  | CallStart => snd (start s)
  | CallStop => snd (stop s)
  | CallSimulatePrice change => simulate_price_movement change s
  | CallExecute ts n a => recover (execute_mock_trade ts n a s) s
  | CallUpdateState t1 t2 => recover (update_state t1 t2 s) s
  | LoopTest => set_status (if is_running s then active else stopped) s
  end.

Fixpoint run (cs : list call) (s : bot) : bot :=
  match cs with
  | [] => s
  | c :: cs' => run cs' (step c s)
  end.

Definition reachable (s : bot) : Prop := exists cs, s = run cs init.


(** ** Specification vocabulary *)

(** The number of shares a BUY can afford, before [int]. *)
Definition buy_quote (s : bot) : Q := cash s * 0.95 / current_price s.

(** The paths through [execute_mock_trade], each with the conditions
    under which it is taken and the object it leaves. *)
Inductive executed (timestamp : string) (n action : Z) (s : bot)
  : result bot -> Prop :=
| ExecRaise :
    action = 1%Z -> shares_held s = 0%Z -> current_price s == 0 ->
    executed timestamp n action s (Raise ZeroDivisionError)
| ExecSkip :
    action = 1%Z -> shares_held s = 0%Z -> ~ current_price s == 0 ->
    (py_int (buy_quote s) <= 0)%Z ->
    executed timestamp n action s (Ok s)
| ExecBuy :
    action = 1%Z -> shares_held s = 0%Z -> ~ current_price s == 0 ->
    (0 < py_int (buy_quote s))%Z ->
    let k := py_int (buy_quote s) in
    let t := {| tr_timestamp := timestamp; tr_action := BUY;
                tr_shares := k; tr_price := current_price s;
                order_id := mock_order_id n; profit := None |} in
    executed timestamp n action s
      (Ok (set_last_action BUY
             (set_trade_history (trade_history s ++ [t])
                (set_shares_held k
                   (set_cash (cash s - inject_Z k * current_price s) s)))))
| ExecSell :
    action = 2%Z -> (0 < shares_held s)%Z ->
    let revenue := inject_Z (shares_held s) * current_price s in
    let basis := inject_Z (shares_held s)
                 * (portfolio_value (bot_state s) - cash s)
                 / inject_Z (Z.max (shares_held s) 1) in
    let t := {| tr_timestamp := timestamp; tr_action := SELL;
                tr_shares := shares_held s; tr_price := current_price s;
                order_id := mock_order_id n;
                profit := Some (revenue - basis) |} in
    executed timestamp n action s
      (Ok (set_shares_held 0
             (set_last_action SELL
                (set_trade_history (trade_history s ++ [t])
                   (set_cash (cash s + revenue) s)))))
| ExecHold :
    ~ (action = 1%Z /\ shares_held s = 0%Z) ->
    ~ (action = 2%Z /\ (0 < shares_held s)%Z) ->
    executed timestamp n action s (Ok (set_last_action HOLD s)).

(** The local list [actions] of [make_trading_decision]: position [a]
    holds the name of action code [a]. *)
Definition actions : list action_label := [HOLD; BUY; SELL].

Definition action_name (a : Z) : option action_label :=
  if (a <? 0)%Z then None else actions !! Z.to_nat a.

(** [tail(limit)] in the words of the specification: the most recent
    [limit] records in insertion order, the whole buffer when it holds
    fewer than [limit]. *)
Definition spec_tail {A} (limit : Z) (buf : list A) : list A :=
  if (Z.of_nat (length buf) <? limit)%Z then buf
  else drop (length buf - Z.to_nat limit) buf.

(** The snapshot agrees with the position it was taken from. *)
Definition accounts_balance (s : bot) : Prop :=
  let b := bot_state s in
  portfolio_value b == cash s + inject_Z (shares_held s) * current_price s /\
  total_pl b == portfolio_value b - inject_Z (initial_value s) /\
  initial_value s = 10000%Z /\
  total_pl_pct b == 100 * total_pl b / inject_Z (initial_value s).

(** The position is sound: no short position, no debt, no negative
    price. *)
Definition sound_position (s : bot) : Prop :=
  (0 <= shares_held s)%Z /\ 0 <= cash s /\ 0 <= current_price s.

(** The last [n] entries of a history. *)
Definition keep_last {A} (n : nat) (l : list A) : list A :=
  drop (length l - n) l.

(** No two records of a history share an order id. *)
Definition unique_order_ids (h : list trade) : Prop :=
  forall (i j : nat) (ti tj : trade),
    i <> j -> h !! i = Some ti -> h !! j = Some tj ->
    order_id ti <> order_id tj.

(** The price factor [1 + change_percent] of a call that moves the price
    is not negative, so that the price never becomes negative.  The
    draws of [random.gauss(0.001, 0.015)] are a few hundredths. *)
Definition price_factor_nonneg (c : call) : Prop :=
  match c with
  | CallSimulatePrice change => -1 <= change
  | _ => True
  end.

(** The calls that one iteration of [trading_loop] makes after the loop
    test: [update_state] is reached only when the trade did not raise. *)
Definition iteration_calls (i : tick_input) (s : bot) : list call :=
  let s1 := simulate_price_movement (change_percent i) (set_status active s) in
  let action := make_trading_decision (decision_draw i) s1 in
  [CallSimulatePrice (change_percent i);
   CallExecute (trade_time i) (order_draw i) action]
  ++ match execute_mock_trade (trade_time i) (order_draw i) action s1 with
     | Ok _ => [CallUpdateState (update_time i) (sample_time i)]
     | Raise _ => []
     end.

(** *** Ghost logs of a run

    The records a run has appended, kept for ever: the histories of the
    object are compared with them. *)

(** The [randint] values a call consumes: one when it appends a trade. *)
Definition drawn (c : call) (s : bot) : list Z :=
  match c with
  | CallExecute _ n _ =>
      if (length (trade_history s) <? length (trade_history (step c s)))%nat
      then [n] else []
  | _ => []
  end.

Fixpoint draws (cs : list call) (s : bot) : list Z :=
  match cs with
  | [] => []
  | c :: cs' => drawn c s ++ draws cs' (step c s)
  end.

(** The sample a call appends: the newest one after a refresh. *)
Definition appended (c : call) (s : bot) : list sample :=
  match c with
  | CallUpdateState now1 now2 =>
      match update_state now1 now2 s with
      | Ok s' => option_list (last (performance_history s'))
      | Raise _ => []
      end
  | _ => []
  end.

Fixpoint samples (cs : list call) (s : bot) : list sample :=
  match cs with
  | [] => []
  | c :: cs' => appended c s ++ samples cs' (step c s)
  end.

(** The equally likely values [k/n], [k < n], of a uniform draw from
    [0, 1) taken at resolution [n]. *)
Definition uniform_draws (n : nat) : list Q :=
  map (fun k => Z.of_nat k # Pos.of_nat n) (seq 0 n).

(** How many of the draws [ds] make the policy return action code [a]. *)
Definition frequency (a : Z) (s : bot) (ds : list Q) : nat :=
  length (List.filter (fun r => (make_trading_decision r s =? a)%Z) ds).

(** ** Further vocabulary *)

(** What the position is worth at the current price. *)
Definition worth (s : bot) : Q :=
  cash s + inject_Z (shares_held s) * current_price s.

(** What a call adds to the worth of the position: only a price move
    does, by the move of the shares held. *)
Definition worth_change (c : call) (s : bot) : Q :=
  match c with
  | CallSimulatePrice change =>
      inject_Z (shares_held s) * current_price s * change
  | _ => 0
  end.

(** The product of the price factors of a run. *)
Fixpoint price_factor (cs : list call) : Q :=
  match cs with
  | [] => 1
  | CallSimulatePrice change :: cs' => (1 + change) * price_factor cs'
  | _ :: cs' => price_factor cs'
  end.

(** A performance sample adds up. *)
Definition balanced (x : sample) : Prop :=
  sm_portfolio_value x == sm_cash x + position_value x.

(** The shape of a trade history and the number of shares it leaves
    open: BUY and SELL records alternate, starting with a BUY; a BUY
    opens a positive number of shares and carries no profit; a SELL
    closes exactly the shares the BUY before it opened and carries a
    profit. *)
Inductive ledger : list trade -> Z -> Prop :=
| ledger_nil : ledger [] 0
| ledger_buy (h : list trade) (t : trade) :
    ledger h 0 ->
    tr_action t = BUY -> (0 < tr_shares t)%Z -> profit t = None ->
    ledger (h ++ [t]) (tr_shares t)
| ledger_sell (h : list trade) (t : trade) (k : Z) :
    ledger h k -> (0 < k)%Z ->
    tr_action t = SELL -> tr_shares t = k -> is_Some (profit t) ->
    ledger (h ++ [t]) 0.

(** The calls of the lifecycle: the API's [initialize], [start] and
    [stop], and the test of the loop condition. *)
Definition lifecycle_call (c : call) : bool :=
  match c with
  | CallInitialize _ | CallStart | CallStop | LoopTest => true
  | _ => false
  end.

(** What the price moves of a run add to the worth of the position. *)
Fixpoint gains (cs : list call) (s : bot) : Q :=
  match cs with
  | [] => 0
  | c :: cs' => worth_change c s + gains cs' (step c s)
  end.

(** *** The records a run must leave

    What the source says each call appends, read off the state the call
    starts from. *)

(** The dict that [update_state] appends to the performance history. *)
Definition sample_at (now2 : string) (s : bot) : sample :=
  {| sm_timestamp := now2;
     sm_portfolio_value :=
       cash s + inject_Z (shares_held s) * current_price s;
     sm_cash := cash s;
     position_value := inject_Z (shares_held s) * current_price s |}.

(** One sample for each [update_state] of the run, in order. *)
Fixpoint refresh_log (cs : list call) (s : bot) : list sample :=
  match cs with
  | [] => []
  | c :: cs' =>
      match c with
      | CallUpdateState _ now2 => [sample_at now2 s]
      | _ => []
      end ++ refresh_log cs' (step c s)
  end.

(** The number of [update_state] calls of a run. *)
Fixpoint refresh_count (cs : list call) : nat :=
  match cs with
  | [] => O
  | CallUpdateState _ _ :: cs' => S (refresh_count cs')
  | _ :: cs' => refresh_count cs'
  end.

(** The call makes a trade: a BUY on a flat position at a non-zero
    price that 95% of the cash can pay for one share, or a SELL of an
    open position. *)
Definition trades_now (c : call) (s : bot) : bool :=
  match c with
  | CallExecute _ _ action =>
      ((action =? 1)%Z && (shares_held s =? 0)%Z
       && negb (Qeq_bool (current_price s) 0)
       && Qle_bool 1 (cash s * 0.95 / current_price s))
      || ((action =? 2)%Z && (0 <? shares_held s)%Z)
  | _ => false
  end.

(** The number of trades of a run. *)
Fixpoint trade_count (cs : list call) (s : bot) : nat :=
  match cs with
  | [] => O
  | c :: cs' =>
      ((if trades_now c s then 1 else 0) + trade_count cs' (step c s))%nat
  end.

(** * Properties *)

(** ** Python primitives *)

Lemma Qltb_lt (x y : Q) : Qltb x y = true <-> x < y.
Proof.
  unfold Qltb. rewrite negb_true_iff, <- not_true_iff_false, Qle_bool_iff.
  split; [apply Qnot_le_lt | apply Qlt_not_le].
Qed.

Lemma Qltb_ge (x y : Q) : Qltb x y = false <-> y <= x.
Proof.
  unfold Qltb. rewrite negb_false_iff. apply Qle_bool_iff.
Qed.

Lemma py_div_ok (x y : Q) : ~ y == 0 -> py_div x y = Ok (x / y).
Proof.
  intros Hy. unfold py_div.
  destruct (Qeq_bool y 0) eqn:E; [|reflexivity].
  apply Qeq_bool_iff in E. contradiction.
Qed.

Lemma py_div_zero (x y : Q) : y == 0 -> py_div x y = Raise ZeroDivisionError.
Proof.
  intros Hy. unfold py_div. apply Qeq_bool_iff in Hy. now rewrite Hy.
Qed.

(** On non-negative numbers [int] is the floor. *)
Lemma py_int_nonneg (x : Q) : 0 <= x -> py_int x = Qfloor x.
Proof.
  destruct x as [a b]. unfold Qle, py_int, Qfloor. simpl. intros Ha.
  apply Z.quot_div_nonneg; lia.
Qed.

(** On negative numbers [int] and the floor differ, but neither is
    positive. *)
Lemma py_int_neg (x : Q) : x < 0 -> (py_int x <= 0 /\ Qfloor x < 0)%Z.
Proof.
  destruct x as [a b]. unfold Qlt, py_int, Qfloor. simpl. intros Ha. split.
  - assert (0 <= Z.quot (- a) (Z.pos b))%Z as H by (apply Z.quot_pos; lia).
    rewrite Z.quot_opp_l in H by lia. lia.
  - apply Z.div_lt_upper_bound; lia.
Qed.

Lemma py_int_pos (x : Q) :
  (0 < py_int x)%Z <-> (0 < Qfloor x)%Z.
Proof.
  destruct (Qlt_le_dec x 0) as [Hneg | Hpos].
  - apply py_int_neg in Hneg. lia.
  - now rewrite py_int_nonneg.
Qed.

Lemma py_int_of_pos (x : Q) : (0 < py_int x)%Z -> py_int x = Qfloor x.
Proof.
  intros H. destruct (Qlt_le_dec x 0) as [Hneg | Hpos].
  - apply py_int_neg in Hneg. lia.
  - now apply py_int_nonneg.
Qed.

Lemma py_int_le (x : Q) : 0 <= x -> inject_Z (py_int x) <= x.
Proof.
  intros H. rewrite py_int_nonneg by assumption. apply Qfloor_le.
Qed.

Section Slices.
Context {A : Type}.
Implicit Types (l : list A) (k : Z).

  (** [l[-k:]] for a positive [k]: the last [k] elements. *)
Lemma py_slice_last l k :
    (0 < k)%Z -> py_slice_from (- k) l = drop (length l - Z.to_nat k) l.
Proof.
    intros Hk. unfold py_slice_from.
    destruct (Z.ltb_spec (- k) 0); [|lia]. f_equal. lia.
Qed.

  (** [l[-0:]] is [l[0:]]: the whole list. *)
Lemma py_slice_zero l : py_slice_from (- 0) l = l.
Proof.
    unfold py_slice_from. simpl. now rewrite Z.min_l by lia.
Qed.

  (** [l[-k:]] for a negative [k] drops the first [|k|] elements. *)
Lemma py_slice_neg l k :
    (k < 0)%Z -> py_slice_from (- k) l = drop (Z.to_nat (- k)) l.
Proof.
    intros Hk. unfold py_slice_from.
    destruct (Z.ltb_spec (- k) 0); [lia|].
    destruct (Z.le_ge_cases (- k) (Z.of_nat (length l))) as [Hle | Hge].
    - now rewrite Z.min_l.
    - rewrite Z.min_r by assumption.
      rewrite Nat2Z.id, !drop_ge; [reflexivity | lia | lia].
Qed.

Lemma py_slice_length l k :
    (0 < k)%Z ->
    length (py_slice_from (- k) l) = Nat.min (Z.to_nat k) (length l).
Proof.
    intros Hk. rewrite py_slice_last, length_drop by assumption. lia.
Qed.

Lemma py_slice_short l k :
    (Z.of_nat (length l) <= k)%Z -> py_slice_from (- k) l = l.
Proof.
    intros Hk. destruct (Z.eq_dec k 0%Z) as [-> | Hne].
    - apply py_slice_zero.
    - rewrite py_slice_last by lia.
      replace (length l - Z.to_nat k)%nat with O by lia. reflexivity.
Qed.

  (** Appending to a list already cut to its last [n] elements and
      cutting again is cutting the full log. *)
Lemma drop_last_snoc (n : nat) (full : list A) (x : A) :
    (0 < n)%nat ->
    let kept := drop (length full - n) full in
    drop (length (kept ++ [x]) - n) (kept ++ [x])
    = drop (length (full ++ [x]) - n) (full ++ [x]).
Proof.
    intros Hn kept. subst kept.
    rewrite !length_app, length_drop. simpl.
    destruct (Nat.le_gt_cases (length full) n) as [Hle | Hgt].
    - replace (length full - n)%nat with O by lia.
      now rewrite Nat.sub_0_r.
    - replace (length full - (length full - n) + 1 - n)%nat with 1%nat by lia.
      replace (length full + 1 - n)%nat with (length full - n + 1)%nat by lia.
      rewrite <- (drop_drop (full ++ [x]) 1 (length full - n)).
      rewrite (drop_app_le full [x] (length full - n)) by lia.
      reflexivity.
Qed.
End Slices.

(** ** The trade executor *)

Lemma execute_mock_trade_cases (timestamp : string) (n action : Z) (s : bot) :
  executed timestamp n action s (execute_mock_trade timestamp n action s).
Proof.
  unfold execute_mock_trade.
  destruct (Z.eqb_spec action 1) as [Ha1 | Ha1];
    destruct (Z.eqb_spec (shares_held s) 0) as [Hs0 | Hs0]; simpl.
  - destruct (Qeq_dec (current_price s) 0) as [Hp | Hp].
    + rewrite py_div_zero by assumption. now apply ExecRaise.
    + rewrite py_div_ok by assumption. simpl.
      fold (buy_quote s).
      destruct (Z.ltb_spec 0 (py_int (buy_quote s))) as [Hk | Hk].
      * now apply ExecBuy.
      * now apply ExecSkip.
  - destruct (Z.eqb_spec action 2); [lia|]. simpl.
    apply ExecHold; lia.
  - destruct (Z.eqb_spec action 2) as [Ha2 | Ha2];
      destruct (Z.ltb_spec 0 (shares_held s)) as [Hs | Hs]; simpl;
      try (apply ExecHold; lia).
    lia.
  - destruct (Z.eqb_spec action 2) as [Ha2 | Ha2];
      destruct (Z.ltb_spec 0 (shares_held s)) as [Hs | Hs]; simpl;
      try (apply ExecHold; lia).
    rewrite py_div_ok.
    + now apply ExecSell.
    + unfold Qeq. simpl. lia.
Qed.

(** C3. A BUY on a flat position sizes the order at
    [floor(cash * 0.95 / current_price)] shares.  When that number is not
    positive the object is left exactly as it was (same position, no
    trade record).  Otherwise cash goes down by the cost of the shares,
    [shares_held] becomes the number bought, one BUY record carrying that
    number and the current price is appended, and [last_action] is BUY. *)
Theorem execute_buy_when_flat (timestamp : string) (n : Z) (s : bot) :
  shares_held s = 0%Z ->
  ~ current_price s == 0 ->
  let shares_to_buy := Qfloor (cash s * 0.95 / current_price s) in
  exists s',
    execute_mock_trade timestamp n 1 s = Ok s' /\
    ((shares_to_buy <= 0)%Z -> s' = s) /\
    ((0 < shares_to_buy)%Z ->
     cash s' = cash s - inject_Z shares_to_buy * current_price s /\
     shares_held s' = shares_to_buy /\
     current_price s' = current_price s /\
     trade_history s' =
       trade_history s ++
       [ {| tr_timestamp := timestamp; tr_action := BUY;
            tr_shares := shares_to_buy; tr_price := current_price s;
            order_id := mock_order_id n; profit := None |} ] /\
     last_action (bot_state s') = BUY).
Proof.
  intros Hflat Hprice shares_to_buy. subst shares_to_buy.
  fold (buy_quote s).
  destruct (execute_mock_trade_cases timestamp n 1 s)
    as [_ _ Hzero | _ _ _ Hk | _ _ _ Hk k t | Hsell | Hhold _].
  - contradiction.
  - exists s. split; [reflexivity|]. split; [reflexivity|].
    intros Hpos. apply py_int_pos in Hpos. lia.
  - exists (set_last_action BUY
              (set_trade_history (trade_history s ++ [t])
                 (set_shares_held k
                    (set_cash (cash s - inject_Z k * current_price s) s)))).
    split; [reflexivity|]. split.
    + intros Hle. apply py_int_pos in Hk. lia.
    + intros _. subst t k. rewrite (py_int_of_pos _ Hk). simpl. tauto.
  - discriminate.
  - exfalso. apply Hhold. now split.
Qed.

Lemma execute_buy_when_flat_witness :
  exists s',
    execute_mock_trade "t0" 1234 1 init = Ok s' /\
    ((Qfloor (cash init * 0.95 / current_price init) <= 0)%Z -> s' = init) /\
    ((0 < Qfloor (cash init * 0.95 / current_price init))%Z ->
     cash s' =
       cash init
       - inject_Z (Qfloor (cash init * 0.95 / current_price init))
         * current_price init /\
     shares_held s' = Qfloor (cash init * 0.95 / current_price init) /\
     current_price s' = current_price init /\
     trade_history s' =
       trade_history init ++
       [ {| tr_timestamp := "t0"; tr_action := BUY;
            tr_shares := Qfloor (cash init * 0.95 / current_price init);
            tr_price := current_price init;
            order_id := mock_order_id 1234; profit := None |} ] /\
     last_action (bot_state s') = BUY).
Proof.
  apply (execute_buy_when_flat "t0" 1234 init).
  - reflexivity.
  - intros H. vm_compute in H. discriminate.
Defined.

(** The BUY branch raises on a zero price, before touching the object. *)
Lemma execute_buy_zero_price (timestamp : string) (n : Z) (s : bot) :
  shares_held s = 0%Z -> current_price s == 0 ->
  execute_mock_trade timestamp n 1 s = Raise ZeroDivisionError.
Proof.
  intros Hflat Hzero.
  destruct (execute_mock_trade_cases timestamp n 1 s)
    as [_ _ _ | _ _ Hp _ | _ _ Hp _ k t | Hsell | Hhold _];
    try reflexivity; try contradiction; try discriminate.
  exfalso. apply Hhold. now split.
Qed.

(** C10. A SELL of an open position records as profit the revenue minus
    the difference between the portfolio value stored in the snapshot and
    the cash held before the sale: the cost basis is the position value
    of the last refresh. *)
Theorem sell_profit_uses_snapshot_basis (timestamp : string) (n : Z) (s : bot) :
  (0 < shares_held s)%Z ->
  let revenue := inject_Z (shares_held s) * current_price s in
  exists s' t p,
    execute_mock_trade timestamp n 2 s = Ok s' /\
    trade_history s' = trade_history s ++ [t] /\
    tr_action t = SELL /\
    profit t = Some p /\
    p == revenue - (portfolio_value (bot_state s) - cash s).
Proof.
  intros Hheld revenue. subst revenue.
  destruct (execute_mock_trade_cases timestamp n 2 s)
    as [Hbuy | Hbuy | Hbuy | _ _ revenue basis t | Hhold Hhold'];
    try discriminate.
  - eexists _, t, (revenue - basis).
    split; [reflexivity|]. repeat split.
    subst revenue basis. rewrite Z.max_l by lia.
    assert (~ inject_Z (shares_held s) == 0) as Hne
      by (unfold Qeq; simpl; lia).
    field. exact Hne.
  - exfalso. apply Hhold'. now split.
Qed.

Lemma sell_profit_uses_snapshot_basis_witness :
  exists s' t p,
    execute_mock_trade "t3" 4321 2
      (run [CallExecute "t0" 1234 1; CallUpdateState "t1" "t2";
            CallSimulatePrice (1 # 7)] init) = Ok s' /\
    tr_action t = SELL /\
    profit t = Some p /\
    p == 1350.
Proof.
  assert (0 < shares_held
                (run [CallExecute "t0" 1234 1; CallUpdateState "t1" "t2";
                      CallSimulatePrice (1 # 7)] init))%Z as Hheld
    by reflexivity.
  destruct (sell_profit_uses_snapshot_basis "t3" 4321 _ Hheld)
    as (s' & t & p & Hs' & _ & Ht & Hp & Heq).
  exists s', t, p. repeat split; try assumption.
  rewrite Heq. reflexivity.
Defined.

(** ** The decision policy *)

Lemma count_map {A B} (f : B -> bool) (g : A -> B) (l : list A) :
  length (List.filter f (map g l))
  = length (List.filter (fun x => f (g x)) l).
Proof.
  induction l as [|x l IH]; simpl; [reflexivity|].
  destruct (f (g x)); simpl; now rewrite IH.
Qed.

Lemma count_below (c n : nat) :
  (c <= n)%nat ->
  length (List.filter (fun k => (k <? c)%nat) (seq 0 n)) = c.
Proof.
  revert c. induction n as [|n IH]; intros c Hc.
  - simpl. lia.
  - rewrite seq_S, List.filter_app, length_app. simpl.
    destruct (Nat.ltb_spec n c) as [Hlt | Hge]; simpl.
    + assert (c = S n) as -> by lia.
      rewrite (List.filter_ext_in _ (fun _ => true)).
      * rewrite List.forallb_filter_id, length_seq; [lia|].
        now apply List.forallb_forall.
      * intros k Hk. apply in_seq in Hk. apply Nat.ltb_lt. lia.
    + rewrite IH by lia. lia.
Qed.

Lemma uniform_draw_below (k n a b : nat) :
  (0 < n)%nat -> (0 < b)%nat ->
  Qltb (Z.of_nat k # Pos.of_nat n) (Z.of_nat a # Pos.of_nat b)
  = (k * b <? a * n)%nat.
Proof.
  intros Hn Hb.
  assert (forall m, (0 < m)%nat -> Z.pos (Pos.of_nat m) = Z.of_nat m) as HP.
  { intros m Hm. destruct m; [lia|].
    rewrite <- Pos.of_nat_succ, Zpos_P_of_succ_nat. lia. }
  destruct (Nat.ltb_spec (k * b) (a * n)) as [Hlt | Hge].
  - apply Qltb_lt. unfold Qlt. simpl. rewrite !HP by assumption. nia.
  - apply Qltb_ge. unfold Qle. simpl. rewrite !HP by assumption. nia.
Qed.

Lemma frequency_threshold (a b n c : nat) (code : Z) (s : bot) :
  (0 < n)%nat -> (0 < b)%nat -> (c <= n)%nat ->
  (forall k, (k * b < a * n)%nat <-> (k < c)%nat) ->
  (forall r, make_trading_decision r s = code
             <-> Qltb r (Z.of_nat a # Pos.of_nat b) = true) ->
  frequency code s (uniform_draws n) = c.
Proof.
  intros Hn Hb Hc Hthr Hdec. unfold frequency, uniform_draws.
  rewrite count_map.
  rewrite (List.filter_ext_in _ (fun k => (k <? c)%nat)).
  - now apply count_below.
  - intros k _. apply eq_true_iff_eq.
    rewrite Z.eqb_eq, Hdec, uniform_draw_below, !Nat.ltb_lt by assumption.
    apply Hthr.
Qed.

Lemma decision_flat (r : Q) (s : bot) :
  shares_held s = 0%Z ->
  make_trading_decision r s = if Qltb r 0.2 then 1%Z else 0%Z.
Proof.
  intros H. unfold make_trading_decision. now rewrite H.
Qed.

Lemma decision_holding (r : Q) (s : bot) :
  shares_held s <> 0%Z ->
  make_trading_decision r s = if Qltb r 0.15 then 2%Z else 0%Z.
Proof.
  intros H. unfold make_trading_decision.
  now destruct (Z.eqb_spec (shares_held s) 0).
Qed.

Lemma frequency_buy (m : nat) (s : bot) :
  shares_held s = 0%Z ->
  frequency 1 s (uniform_draws (20 * S m)) = (4 * S m)%nat.
Proof.
  intros Hflat.
  apply (frequency_threshold 2 10); try lia.
  intros r. rewrite (decision_flat r s Hflat).
  change (Z.of_nat 2 # Pos.of_nat 10) with 0.2.
  destruct (Qltb r 0.2); split; (reflexivity || discriminate).
Qed.

Lemma frequency_sell (m : nat) (s : bot) :
  shares_held s <> 0%Z ->
  frequency 2 s (uniform_draws (20 * S m)) = (3 * S m)%nat.
Proof.
  intros Hheld.
  apply (frequency_threshold 15 100); try lia.
  intros r. rewrite (decision_holding r s Hheld).
  change (Z.of_nat 15 # Pos.of_nat 100) with 0.15.
  destruct (Qltb r 0.15); split; (reflexivity || discriminate).
Qed.

Lemma uniform_draws_length (n : nat) : length (uniform_draws n) = n.
Proof.
  unfold uniform_draws. now rewrite length_map, length_seq.
Qed.

(** C8. On a position with [shares_held >= 0] the policy answers BUY
    exactly when the position is flat and the draw is below 0.2, SELL
    exactly when shares are held and the draw is below 0.15, and HOLD in
    every other case; it has no other answer.  Over the equally likely
    draws [k/n] of a uniform source ([n] a multiple of 20) the BUY
    answers on a flat position are 20 in 100 and the SELL answers on an
    open position are 15 in 100. *)
Theorem make_trading_decision_policy (r : Q) (s : bot) :
  (0 <= shares_held s)%Z ->
  let a := make_trading_decision r s in
  (action_name a = Some BUY <-> shares_held s = 0%Z /\ r < 0.2) /\
  (action_name a = Some SELL <-> (0 < shares_held s)%Z /\ r < 0.15) /\
  (action_name a = Some HOLD <->
     (shares_held s = 0%Z /\ 0.2 <= r)
     \/ ((0 < shares_held s)%Z /\ 0.15 <= r)) /\
  (a = 0 \/ a = 1 \/ a = 2)%Z /\
  (forall m : nat,
     let ds := uniform_draws (20 * S m) in
     (shares_held s = 0%Z ->
      (100 * frequency 1 s ds = 20 * length ds)%nat) /\
     ((0 < shares_held s)%Z ->
      (100 * frequency 2 s ds = 15 * length ds)%nat)).
Proof.
  intros Hnonneg a. subst a.
  assert (action_name 0 = Some HOLD /\ action_name 1 = Some BUY
          /\ action_name 2 = Some SELL) as (N0 & N1 & N2)
    by (repeat split; reflexivity).
  destruct (Z.eq_dec (shares_held s) 0%Z) as [Hflat | Hheld].
  - rewrite (decision_flat r s Hflat).
    destruct (Qltb r 0.2) eqn:E;
      [apply Qltb_lt in E; rewrite N1 | apply Qltb_ge in E; rewrite N0].
    all: split; [|split; [|split; [|split]]].
    all: try (intuition (try discriminate; try lia; try lra); fail).
    all: intros m ds; subst ds; rewrite uniform_draws_length.
    all: split; [intros _; rewrite frequency_buy by assumption; lia | lia].
  - rewrite (decision_holding r s Hheld).
    destruct (Qltb r 0.15) eqn:E;
      [apply Qltb_lt in E; rewrite N2 | apply Qltb_ge in E; rewrite N0].
    all: split; [|split; [|split; [|split]]].
    all: try (intuition (try discriminate; try lia; try lra); fail).
    all: intros m ds; subst ds; rewrite uniform_draws_length.
    all: split; [lia | intros _; rewrite frequency_sell by assumption; lia].
Qed.

Lemma make_trading_decision_policy_witness :
  action_name (make_trading_decision 0.1 init) = Some BUY
  /\ (100 * frequency 1 init (uniform_draws 20)
      = 20 * length (uniform_draws 20))%nat.
Proof.
  assert (0 <= shares_held init)%Z as Hnonneg
    by (vm_compute; discriminate).
  destruct (make_trading_decision_policy 0.1 init Hnonneg)
    as (Hbuy & _ & _ & _ & Hfreq).
  split.
  - apply Hbuy. split; reflexivity.
  - apply (Hfreq O). reflexivity.
Defined.

(** ** The state aggregator *)

Lemma update_state_total (now1 now2 : string) (s : bot) :
  initial_value s <> 0%Z -> exists s', update_state now1 now2 s = Ok s'.
Proof.
  intros Hiv. unfold update_state.
  rewrite py_div_ok by (unfold Qeq; simpl; lia).
  eexists. reflexivity.
Qed.

(** What a refresh leaves alone. *)
Lemma update_state_frame (now1 now2 : string) (s s' : bot) :
  update_state now1 now2 s = Ok s' ->
  s' = set_performance_history (performance_history s')
         (set_bot_state (bot_state s') s).
Proof.
  unfold update_state.
  destruct (py_div _ _) as [ratio|e]; simpl; [|discriminate].
  intros [= <-]. reflexivity.
Qed.

(** What a refresh writes into the snapshot. *)
Lemma update_state_snapshot (now1 now2 : string) (s s' : bot) :
  update_state now1 now2 s = Ok s' ->
  let b := bot_state s' in
  portfolio_value b = cash s + inject_Z (shares_held s) * current_price s /\
  st_cash b = cash s /\
  total_pl b = portfolio_value b - inject_Z (initial_value s) /\
  total_pl_pct b = total_pl b / inject_Z (initial_value s) * 100 /\
  st_status b = st_status (bot_state s) /\
  last_action b = last_action (bot_state s) /\
  last_update b = Some now1 /\
  initial_value s <> 0%Z.
Proof.
  unfold update_state, py_div.
  destruct (Qeq_bool (inject_Z (initial_value s)) 0) eqn:E;
    simpl; [discriminate|].
  intros [= <-]. simpl. repeat split.
  intros Hz. rewrite Hz in E. discriminate.
Qed.

(** What a refresh does to the performance history: the new sample goes
    to the end, and only the last 1000 entries are kept. *)
Lemma update_state_history (now1 now2 : string) (s s' : bot) :
  update_state now1 now2 s = Ok s' ->
  exists x : sample,
    let h := performance_history s ++ [x] in
    sm_timestamp x = now2 /\
    sm_portfolio_value x = portfolio_value (bot_state s') /\
    sm_cash x = cash s /\
    position_value x = inject_Z (shares_held s) * current_price s /\
    performance_history s' = drop (length h - 1000) h.
Proof.
  unfold update_state.
  destruct (py_div _ _) as [ratio|e]; simpl; [|discriminate].
  intros [= <-]. simpl.
  exists {| sm_timestamp := now2;
            sm_portfolio_value :=
              cash s + inject_Z (shares_held s) * current_price s;
            sm_cash := cash s;
            position_value := inject_Z (shares_held s) * current_price s |}.
  cbv zeta.
  split; [reflexivity|]. split; [reflexivity|]. split; [reflexivity|].
  split; [reflexivity|].
  match goal with |- context [length ?l] => set (h := l) end.
  destruct (Nat.ltb_spec 1000 (length h)) as [Hlong | Hshort].
  - change (-1000)%Z with (Z.opp 1000).
    rewrite (py_slice_last h 1000) by lia. reflexivity.
  - replace (length h - 1000)%nat with O by lia. reflexivity.
Qed.

(** ** What each call leaves alone *)

Lemma execute_frame (timestamp : string) (n action : Z) (s s' : bot) :
  execute_mock_trade timestamp n action s = Ok s' ->
  s' = set_shares_held (shares_held s')
         (set_cash (cash s')
            (set_trade_history (trade_history s')
               (set_last_action (last_action (bot_state s')) s))).
Proof.
  destruct (execute_mock_trade_cases timestamp n action s);
    intros [= <-]; destruct s as [? ? ? ? ? ? []]; reflexivity.
Qed.

Lemma step_initial_value (c : call) (s : bot) :
  initial_value (step c s) = initial_value s.
Proof.
  destruct c; simpl; try reflexivity.
  - unfold start. destruct (is_running s); [reflexivity|].
    destruct (size (config s) =? 0)%nat; reflexivity.
  - unfold stop. destruct (is_running s); reflexivity.
  - destruct (execute_mock_trade timestamp n action s) as [s'|e] eqn:E;
      [|reflexivity].
    simpl. rewrite (execute_frame _ _ _ _ _ E). reflexivity.
  - destruct (update_state now1 now2 s) as [s'|e] eqn:E; [|reflexivity].
    simpl. rewrite (update_state_frame _ _ _ _ E). reflexivity.
Qed.

(** ** Runs *)

Lemma run_app (cs1 cs2 : list call) (s : bot) :
  run (cs1 ++ cs2) s = run cs2 (run cs1 s).
Proof.
  revert s. induction cs1 as [|c cs1 IH]; intros s; simpl; [reflexivity|].
  apply IH.
Qed.

Lemma reachable_init : reachable init.
Proof. now exists []. Qed.

Lemma reachable_run (cs : list call) (s : bot) :
  reachable s -> reachable (run cs s).
Proof.
  intros [cs0 ->]. exists (cs0 ++ cs). now rewrite run_app.
Qed.

(** One pass through the loop of [trading_loop] is the loop test
    followed, when the loop is entered, by the calls of its body. *)
Lemma trading_loop_step_run (i : tick_input) (s : bot) :
  trading_loop_step i s
  = run (LoopTest :: if is_running s then iteration_calls i s else []) s.
Proof.
  unfold trading_loop_step, trading_loop_iteration, iteration_calls.
  simpl. destruct (is_running s); simpl; [|reflexivity].
  destruct (execute_mock_trade _ _ _ _) as [s2|e]; simpl; [|reflexivity].
  destruct (update_state _ _ s2); reflexivity.
Qed.

Lemma trading_loop_step_reachable (i : tick_input) (s : bot) :
  reachable s -> reachable (trading_loop_step i s).
Proof.
  rewrite trading_loop_step_run. apply reachable_run.
Qed.

Section Invariant.
Variable P : bot -> Prop.
Variable allowed : call -> Prop.
Hypothesis P_step : forall c s, allowed c -> P s -> P (step c s).

Lemma run_invariant (cs : list call) (s : bot) :
  Forall allowed cs -> P s -> P (run cs s).
Proof.
  intros Hcs. revert s.
  induction Hcs as [|c cs Hc _ IH]; intros s Hs; simpl; [assumption|].
  apply IH. now apply P_step.
Qed.
End Invariant.

Lemma run_initial_value (cs : list call) (s : bot) :
  initial_value (run cs s) = initial_value s.
Proof.
  apply (run_invariant (fun s' => initial_value s' = initial_value s)
           (fun _ => True)).
  - intros c s' _ <-. apply step_initial_value.
  - now apply Forall_forall.
  - reflexivity.
Qed.

(** A refresh of a state whose [initial_value] is the constructor's
    succeeds and leaves a snapshot that agrees with the position. *)
Lemma refresh_accounts (now1 now2 : string) (s : bot) :
  initial_value s = 10000%Z ->
  exists s', update_state now1 now2 s = Ok s' /\ accounts_balance s'.
Proof.
  intros Hiv.
  destruct (update_state_total now1 now2 s) as [s' Hs']; [lia|].
  exists s'. split; [assumption|].
  pose proof (update_state_snapshot _ _ _ _ Hs') as (Hpv & _ & Hpl & Hpct & _).
  pose proof (update_state_frame _ _ _ _ Hs') as Hframe.
  assert (cash s' = cash s /\ shares_held s' = shares_held s
          /\ current_price s' = current_price s
          /\ initial_value s' = initial_value s) as (Hc & Hsh & Hp & Hi)
    by (rewrite Hframe; repeat split).
  unfold accounts_balance. cbv zeta.
  rewrite Hc, Hsh, Hp, Hi, Hpct, Hpl, Hpv, Hiv.
  repeat split; try reflexivity. field.
Qed.

(** C1. A refresh of any reachable state succeeds, and in the state it
    leaves the snapshot's [portfolio_value] is
    [cash + shares_held * current_price], its [total_pl] is
    [portfolio_value - initial_value] with [initial_value = 10000], and
    its [total_pl_pct] is [100 * total_pl / initial_value]. *)
Theorem refreshed_snapshot_accounts (cs : list call) (now1 now2 : string) :
  exists s',
    update_state now1 now2 (run cs init) = Ok s' /\
    let b := get_state s' in
    portfolio_value b == cash s' + inject_Z (shares_held s') * current_price s' /\
    total_pl b == portfolio_value b - inject_Z (initial_value s') /\
    initial_value s' = 10000%Z /\
    total_pl_pct b == 100 * total_pl b / inject_Z (initial_value s').
Proof.
  apply refresh_accounts, run_initial_value.
Qed.

(** The same after an iteration of the loop that gets to its refresh,
    which it does unless the new price is zero and a BUY is tried. *)
Lemma trading_loop_refresh_accounts (cs : list call) (i : tick_input) :
  is_running (run cs init) = true ->
  ~ current_price (run cs init) * (1 + change_percent i) == 0 ->
  accounts_balance (trading_loop_step i (run cs init)).
Proof.
  set (s := run cs init). intros Hrun Hprice.
  unfold trading_loop_step, trading_loop_iteration. rewrite Hrun.
  set (s1 := simulate_price_movement _ _).
  assert (initial_value s1 = 10000%Z) as Hiv1 by apply run_initial_value.
  destruct (execute_mock_trade_cases (trade_time i) (order_draw i)
              (make_trading_decision (decision_draw i) s1) s1)
    as [_ _ Hz | _ _ _ _ | _ _ _ _ k t | _ _ revenue basis t | _ _];
    [contradiction | | | |];
    match goal with
    | |- context [update_state ?a ?b ?s2] =>
        destruct (refresh_accounts a b s2 Hiv1) as (s3 & -> & H3); exact H3
    end.
Qed.


(** ** The position *)

(** A BUY never costs more than 95% of the cash. *)
Lemma buy_cost_bounded (s : bot) :
  0 <= cash s -> 0 <= current_price s -> ~ current_price s == 0 ->
  inject_Z (py_int (buy_quote s)) * current_price s <= cash s.
Proof.
  intros Hcash Hprice0 Hne.
  assert (0 < current_price s) as Hprice.
  { apply Qle_lteq in Hprice0. destruct Hprice0 as [H | H]; [exact H|].
    symmetry in H. contradiction. }
  assert (buy_quote s * current_price s == cash s * 0.95) as Hq
    by (unfold buy_quote; field; exact Hne).
  assert (0 <= buy_quote s) as Hq0.
  { unfold buy_quote. apply Qle_shift_div_l; [assumption|]. lra. }
  pose proof (py_int_le _ Hq0) as Hk.
  apply (Qmult_le_compat_r _ _ (current_price s)) in Hk; lra.
Qed.

Lemma execute_sound (timestamp : string) (n action : Z) (s : bot) :
  sound_position s ->
  sound_position (recover (execute_mock_trade timestamp n action s) s).
Proof.
  intros (Hsh & Hcash & Hprice).
  destruct (execute_mock_trade_cases timestamp n action s)
    as [_ _ _ | _ _ _ _ | _ _ Hne Hk k t | _ Hheld revenue basis t | _ _];
    unfold sound_position; simpl; try tauto.
  - subst k. repeat split; [lia | | assumption].
    pose proof (buy_cost_bounded s Hcash Hprice Hne). lra.
  - repeat split; [lia | | assumption].
    subst revenue.
    assert (0 <= inject_Z (shares_held s)) by (unfold Qle; simpl; lia).
    assert (0 <= inject_Z (shares_held s) * current_price s)
      by (apply Qmult_le_0_compat; lra).
    lra.
Qed.

Lemma step_sound (c : call) (s : bot) :
  price_factor_nonneg c -> sound_position s -> sound_position (step c s).
Proof.
  intros Hc Hs. destruct c; simpl.
  - exact Hs.
  - unfold start. destruct (is_running s); [exact Hs|].
    destruct (size (config s) =? 0)%nat; exact Hs.
  - unfold stop. destruct (is_running s); exact Hs.
  - destruct Hs as (Hsh & Hcash & Hprice). simpl in Hc.
    repeat split; simpl; try assumption.
    apply Qmult_le_0_compat; lra.
  - now apply execute_sound.
  - destruct (update_state now1 now2 s) as [s'|e] eqn:E; [|exact Hs].
    simpl. unfold sound_position.
    rewrite (update_state_frame _ _ _ _ E). exact Hs.
  - exact Hs.
Qed.

Lemma init_sound : sound_position init.
Proof.
  repeat split; vm_compute; discriminate.
Qed.

(** How an executed action moves [shares_held]. *)
Lemma execute_shares (timestamp : string) (n action : Z) (s : bot) :
  let s' := recover (execute_mock_trade timestamp n action s) s in
  (action = 1%Z ->
   shares_held s' = shares_held s
   \/ (shares_held s = 0 /\ 0 < shares_held s')%Z) /\
  (action = 2%Z ->
   shares_held s' = shares_held s
   \/ (0 < shares_held s /\ shares_held s' = 0)%Z) /\
  (action <> 1%Z -> action <> 2%Z -> shares_held s' = shares_held s).
Proof.
  destruct (execute_mock_trade_cases timestamp n action s)
    as [? ? _ | ? ? _ _ | ? ? _ Hk k t | ? Hheld revenue basis t | ? ?];
    simpl; repeat split; intros; try lia; try tauto.
Qed.

(** [shares_held] is never negative, whatever the prices do. *)
Lemma run_shares_nonneg (cs : list call) :
  (0 <= shares_held (run cs init))%Z.
Proof.
  apply (run_invariant (fun s => (0 <= shares_held s)%Z) (fun _ => True)).
  - intros c s _ Hs. destruct c; simpl; try assumption.
    + unfold start. destruct (is_running s); [assumption|].
      now destruct (size (config s) =? 0)%nat.
    + unfold stop. now destruct (is_running s).
    + pose proof (execute_shares timestamp n action s) as (Hb & Hs' & Hh).
      cbv zeta in Hb, Hs', Hh.
      destruct (Z.eq_dec action 1%Z) as [H1 | H1]; [specialize (Hb H1); lia|].
      destruct (Z.eq_dec action 2%Z) as [H2 | H2]; [specialize (Hs' H2); lia|].
      now rewrite Hh.
    + destruct (update_state now1 now2 s) as [s'|e] eqn:E; [|assumption].
      simpl. now rewrite (update_state_frame _ _ _ _ E).
  - now apply Forall_forall.
  - reflexivity.
Qed.

(** The condition on the price factors is needed for the cash: a factor
    of -1 after a BUY turns the price negative, and the SELL that
    follows pays out a negative revenue. *)
Lemma negative_price_factor_overdraws :
  cash (run [CallExecute "t0" 1234 1; CallSimulatePrice (-2);
             CallExecute "t1" 1235 2] init) < 0.
Proof. reflexivity. Qed.

(** C4. Along every run from the initial position whose price factors
    are not negative, [shares_held] and [cash] are never negative.  In every
    state of such a run an executed BUY leaves [shares_held] unchanged or
    takes it from 0 to a positive value, an executed SELL leaves it
    unchanged or takes it from a positive value to 0, and any other
    action leaves it unchanged; so a BUY never decreases it and a SELL
    never increases it. *)
Theorem position_never_negative (cs : list call) :
  Forall price_factor_nonneg cs ->
  let s := run cs init in
  (0 <= shares_held s)%Z /\
  0 <= cash s /\
  forall (timestamp : string) (n action : Z),
    let s' := step (CallExecute timestamp n action) s in
    (action = 1%Z ->
     (shares_held s' = shares_held s
      \/ (shares_held s = 0 /\ 0 < shares_held s')%Z)
     /\ (shares_held s <= shares_held s')%Z) /\
    (action = 2%Z ->
     (shares_held s' = shares_held s
      \/ (0 < shares_held s /\ shares_held s' = 0)%Z)
     /\ (shares_held s' <= shares_held s)%Z) /\
    (action <> 1%Z -> action <> 2%Z -> shares_held s' = shares_held s).
Proof.
  intros Hcs s.
  assert (sound_position s) as (Hsh & Hcash & Hprice).
  { apply (run_invariant sound_position price_factor_nonneg);
      [apply step_sound | assumption | apply init_sound]. }
  split; [assumption|]. split; [assumption|].
  intros timestamp n action s'. subst s'. simpl.
  pose proof (execute_shares timestamp n action s) as (Hbuy & Hsell & Hhold).
  cbv zeta in Hbuy, Hsell, Hhold.
  split; [|split].
  - intros Ha. specialize (Hbuy Ha). split; [assumption|]. lia.
  - intros Ha. specialize (Hsell Ha). split; [assumption|]. lia.
  - assumption.
Qed.

Lemma position_never_negative_witness :
  (0 <= shares_held
          (run [CallExecute "t0" 1234 1; CallSimulatePrice 0.1;
                CallExecute "t1" 1235 2] init))%Z
  /\ 0 <= cash (run [CallExecute "t0" 1234 1; CallSimulatePrice 0.1;
                     CallExecute "t1" 1235 2] init).
Proof.
  assert (Forall price_factor_nonneg
            [CallExecute "t0" 1234 1; CallSimulatePrice 0.1;
             CallExecute "t1" 1235 2]) as Hcs.
  { repeat (constructor;
              [first [exact I | vm_compute; discriminate] |]).
    constructor. }
  destruct (position_never_negative _ Hcs) as (Hsh & Hcash & _).
  split; assumption.
Defined.

(** ** Affordable orders *)

Lemma Qfloor_pos_iff (q : Q) : (0 < Qfloor q)%Z <-> 1 <= q.
Proof.
  split.
  - intros H. apply Qle_trans with (inject_Z (Qfloor q)); [|apply Qfloor_le].
    unfold Qle. simpl. lia.
  - intros H. apply Qfloor_resp_le in H. change (Qfloor 1) with 1%Z in H. lia.
Qed.

Lemma affordable_iff (s : bot) :
  (0 < py_int (buy_quote s))%Z <-> 1 <= buy_quote s.
Proof.
  rewrite py_int_pos. apply Qfloor_pos_iff.
Qed.

(** ** The histories *)

Lemma keep_last_short {A} (n : nat) (l : list A) :
  (length l <= n)%nat -> keep_last n l = l.
Proof.
  intros H. unfold keep_last.
  now replace (length l - n)%nat with O by lia.
Qed.

Lemma keep_last_length {A} (n : nat) (l : list A) :
  length (keep_last n l) = Nat.min (length l) n.
Proof.
  unfold keep_last. rewrite length_drop. lia.
Qed.

Lemma keep_last_snoc {A} (n : nat) (full : list A) (x : A) :
  (0 < n)%nat ->
  keep_last n (keep_last n full ++ [x]) = keep_last n (full ++ [x]).
Proof.
  intros Hn. apply (drop_last_snoc n full x Hn).
Qed.

Lemma keep_last_last {A} (n : nat) (l : list A) (x : A) :
  (0 < n)%nat -> last (keep_last n (l ++ [x])) = Some x.
Proof.
  intros Hn. unfold keep_last.
  rewrite length_app. simpl.
  rewrite drop_app_le by lia. apply last_snoc.
Qed.

(** A call appends at most one sample, at the end, and then cuts the
    history to its last 1000 entries. *)
Lemma step_performance_history (c : call) (s : bot) :
  (appended c s = [] /\ performance_history (step c s) = performance_history s)
  \/ (exists x, appended c s = [x]
               /\ performance_history (step c s)
                  = keep_last 1000 (performance_history s ++ [x])).
Proof.
  destruct c; simpl; try (left; split; reflexivity).
  - left. split; [reflexivity|]. unfold start.
    destruct (is_running s); [reflexivity|].
    destruct (size (config s) =? 0)%nat; reflexivity.
  - left. split; [reflexivity|]. unfold stop.
    destruct (is_running s); reflexivity.
  - left. split; [reflexivity|].
    destruct (execute_mock_trade timestamp n action s) as [s'|e] eqn:E;
      [|reflexivity].
    simpl. rewrite (execute_frame _ _ _ _ _ E). reflexivity.
  - destruct (update_state now1 now2 s) as [s'|e] eqn:E;
      [|left; split; reflexivity].
    right. destruct (update_state_history _ _ _ _ E) as (x & _ & _ & _ & _ & Hh).
    exists x. simpl. cbv zeta in Hh. fold (keep_last 1000 (performance_history s ++ [x])) in Hh.
    rewrite Hh, keep_last_last by lia. split; reflexivity.
Qed.

Lemma run_performance_history (cs : list call) (s : bot) (full : list sample) :
  performance_history s = keep_last 1000 full ->
  performance_history (run cs s) = keep_last 1000 (full ++ samples cs s).
Proof.
  revert s full. induction cs as [|c cs IH]; intros s full Hs; simpl.
  - now rewrite app_nil_r.
  - destruct (step_performance_history c s) as [[-> Hh] | (x & -> & Hh)].
    + apply IH. now rewrite Hh.
    + rewrite (app_assoc full [x]). apply IH.
      rewrite Hh, Hs. apply keep_last_snoc. lia.
Qed.

(** A call appends at most one trade, at the end; its order id is made
    from the number the call drew. *)
Lemma step_trade_history (c : call) (s : bot) :
  exists newer : list trade,
    trade_history (step c s) = trade_history s ++ newer
    /\ order_id <$> newer = mock_order_id <$> drawn c s.
Proof.
  destruct c; simpl;
    try (exists []; split; [now rewrite app_nil_r | reflexivity]).
  - exists []. rewrite app_nil_r. split; [|reflexivity]. unfold start.
    destruct (is_running s); [reflexivity|].
    destruct (size (config s) =? 0)%nat; reflexivity.
  - exists []. rewrite app_nil_r. split; [|reflexivity]. unfold stop.
    destruct (is_running s); reflexivity.
  - destruct (execute_mock_trade_cases timestamp n action s)
      as [_ _ _ | _ _ _ _ | _ _ _ _ k t | _ _ revenue basis t | _ _]; simpl;
      try (exists [t]; rewrite length_app; simpl;
           destruct (Nat.ltb_spec (length (trade_history s))
                       (length (trade_history s) + 1)); [|lia];
           split; reflexivity);
      exists []; rewrite app_nil_r, Nat.ltb_irrefl; split; reflexivity.
  - exists []. rewrite app_nil_r. split; [|reflexivity].
    destruct (update_state now1 now2 s) as [s'|e] eqn:E; [|reflexivity].
    simpl. rewrite (update_state_frame _ _ _ _ E). reflexivity.
Qed.

Lemma run_trade_history (cs : list call) (s : bot) :
  exists newer : list trade,
    trade_history (run cs s) = trade_history s ++ newer
    /\ order_id <$> newer = mock_order_id <$> draws cs s.
Proof.
  revert s. induction cs as [|c cs IH]; intros s; simpl.
  - exists []. now rewrite app_nil_r.
  - destruct (step_trade_history c s) as (n1 & H1 & Hid1).
    destruct (IH (step c s)) as (n2 & H2 & Hid2).
    exists (n1 ++ n2). split.
    + now rewrite H2, H1, app_assoc.
    + now rewrite !fmap_app, Hid1, Hid2.
Qed.

(** A refresh that does not raise appends exactly the sample the source
    builds from the state it starts from. *)
Lemma update_state_appends (now1 now2 : string) (s : bot) :
  initial_value s <> 0%Z ->
  appended (CallUpdateState now1 now2) s = [sample_at now2 s]
  /\ performance_history (step (CallUpdateState now1 now2) s)
     = keep_last 1000 (performance_history s ++ [sample_at now2 s]).
Proof.
  intros Hiv. simpl.
  destruct (update_state_total now1 now2 s Hiv) as [s' Hs'].
  rewrite Hs'. simpl.
  destruct (update_state_history _ _ _ _ Hs') as (x & Ht & Hpv & Hc & Hp & Hh).
  destruct (update_state_snapshot _ _ _ _ Hs') as (Hsnap & _).
  cbv zeta in Hh, Hsnap.
  assert (x = sample_at now2 s) as ->.
  { destruct x as [xt xv xc xp]. simpl in Ht, Hpv, Hc, Hp.
    unfold sample_at. rewrite Hsnap in Hpv. now subst. }
  fold (keep_last 1000 (performance_history s ++ [sample_at now2 s])) in Hh.
  rewrite Hh, keep_last_last by lia. split; reflexivity.
Qed.

(** The samples a run appends are the ones the source builds, one for
    each refresh. *)
Lemma samples_refresh_log (cs : list call) (s : bot) :
  initial_value s <> 0%Z ->
  samples cs s = refresh_log cs s /\ length (refresh_log cs s) = refresh_count cs.
Proof.
  revert s. induction cs as [|c cs IH]; intros s Hiv; [split; reflexivity|].
  assert (initial_value (step c s) <> 0%Z) as Hiv'
    by (rewrite step_initial_value; exact Hiv).
  destruct (IH _ Hiv') as [IHs IHl].
  cbn [samples refresh_log refresh_count]. rewrite IHs, length_app, IHl.
  destruct c; try (split; reflexivity).
  destruct (update_state_appends now1 now2 s Hiv) as [-> _].
  split; reflexivity.
Qed.

Lemma trades_now_iff (timestamp : string) (n action : Z) (s : bot) :
  trades_now (CallExecute timestamp n action) s = true <->
  (action = 1%Z /\ shares_held s = 0%Z /\ ~ current_price s == 0
   /\ 1 <= buy_quote s)
  \/ (action = 2%Z /\ (0 < shares_held s)%Z).
Proof.
  unfold trades_now, buy_quote.
  rewrite orb_true_iff, !andb_true_iff, !Z.eqb_eq, Z.ltb_lt,
    negb_true_iff, Qle_bool_iff, <- not_true_iff_false, Qeq_bool_iff.
  tauto.
Qed.

(** A call adds one record to the trade history when it makes a trade,
    and none otherwise. *)
Lemma step_trade_count (c : call) (s : bot) :
  length (trade_history (step c s))
  = (length (trade_history s) + if trades_now c s then 1 else 0)%nat.
Proof.
  destruct c; try (simpl; lia).
  - simpl. unfold start. destruct (is_running s); [simpl; lia|].
    destruct (size (config s) =? 0)%nat; simpl; lia.
  - simpl. unfold stop. destruct (is_running s); simpl; lia.
  - pose proof (trades_now_iff timestamp n action s) as Hiff.
    cbn [step].
    destruct (execute_mock_trade_cases timestamp n action s)
      as [Ha Hflat Hz | Ha Hflat Hnz Hk | Ha Hflat Hnz Hk k t
          | Ha Hheld revenue basis t | Hnb Hns];
      destruct (trades_now (CallExecute timestamp n action) s);
      simpl; rewrite ?length_app; simpl; try lia; exfalso.
    + destruct (proj1 Hiff eq_refl) as [(_ & _ & Hp & _) | (Ha2 & _)];
        [contradiction | lia].
    + destruct (proj1 Hiff eq_refl) as [(_ & _ & _ & Hq) | (Ha2 & _)];
        [|lia].
      apply affordable_iff in Hq. lia.
    + assert (false = true) as Hf; [|discriminate].
      apply Hiff. left. repeat split; try assumption.
      now apply affordable_iff.
  - simpl. destruct (update_state now1 now2 s) as [s'|e] eqn:E; simpl; [|lia].
    rewrite (update_state_frame _ _ _ _ E). simpl. lia.
Qed.

Lemma run_trade_count (cs : list call) (s : bot) :
  length (trade_history (run cs s))
  = (length (trade_history s) + trade_count cs s)%nat.
Proof.
  revert s. induction cs as [|c cs IH]; intros s; simpl; [lia|].
  rewrite IH, step_trade_count. lia.
Qed.

(** C6. In a run from the initial state every [update_state] appends
    one sample, the one built from the position it finds, and the
    performance history is the last 1000 of these samples, oldest
    first: it holds [min(refreshes, 1000)] samples, never more than
    1000, and [get_performance(1000)] returns all of it.  After 1001
    refreshes that is exactly the 1000 samples after the first one.
    The trade history is never cut: it holds one record for every trade
    the run made, however many, and whatever follows, the trades
    already recorded stay where they are. *)
Theorem performance_history_bounded_fifo (cs : list call) :
  let s := run cs init in
  let log := refresh_log cs init in
  length log = refresh_count cs /\
  samples cs init = log /\
  performance_history s = drop (length log - 1000) log /\
  (length (performance_history s) <= 1000)%nat /\
  length (performance_history s) = Nat.min (refresh_count cs) 1000 /\
  get_performance (Some 1000%Z) s = drop (length log - 1000) log /\
  length (get_performance (Some 1000%Z) s) = Nat.min (length log) 1000 /\
  (refresh_count cs = 1001%nat ->
   get_performance (Some 1000%Z) s = drop 1 log
   /\ length (get_performance (Some 1000%Z) s) = 1000%nat) /\
  (forall (oldest : sample) (rest : list sample),
     log = oldest :: rest -> length rest = 1000%nat ->
     get_performance (Some 1000%Z) s = rest
     /\ length (get_performance (Some 1000%Z) s) = 1000%nat) /\
  length (trade_history s) = trade_count cs init /\
  (forall cs' : list call,
     exists newer : list trade,
       trade_history (run cs' s) = trade_history s ++ newer).
Proof.
  intros s log.
  assert (initial_value init <> 0%Z) as Hiv by discriminate.
  destruct (samples_refresh_log cs init Hiv) as [Hsamples Hcount].
  fold log in Hsamples, Hcount.
  assert (performance_history s = keep_last 1000 log) as Hh.
  { rewrite <- Hsamples.
    apply (run_performance_history cs init []); reflexivity. }
  assert (get_performance (Some 1000%Z) s = keep_last 1000 log) as Hg.
  { unfold get_performance. simpl. rewrite py_slice_short; [assumption|].
    rewrite Hh, keep_last_length. lia. }
  split; [exact Hcount|]. split; [exact Hsamples|].
  split; [exact Hh|]. split; [rewrite Hh, keep_last_length; lia|].
  split; [rewrite Hh, keep_last_length, Hcount; reflexivity|].
  split; [exact Hg|]. split; [rewrite Hg; apply keep_last_length|].
  split; [|split; [|split]].
  - intros H1001. rewrite Hg. unfold keep_last.
    rewrite length_drop, Hcount, H1001. split; reflexivity.
  - intros oldest rest Hlog Hrest. rewrite Hg, Hlog. unfold keep_last.
    simpl. rewrite Hrest. simpl. split; [reflexivity | assumption].
  - unfold s. rewrite run_trade_count. reflexivity.
  - intros cs'. destruct (run_trade_history cs' s) as (newer & H & _).
    now exists newer.
Qed.

(** ** Order ids *)

Lemma mock_order_id_inj : Inj (=) (=) mock_order_id.
Proof.
  intros n1 n2 H. unfold mock_order_id in H.
  apply String.app_inj in H. now apply pretty_Z_inj in H.
Qed.

Lemma unique_order_ids_NoDup (h : list trade) :
  unique_order_ids h <-> NoDup (order_id <$> h).
Proof.
  rewrite NoDup_alt. unfold unique_order_ids. split.
  - intros Huniq i j x Hi Hj.
    destruct (Nat.eq_dec i j) as [|Hne]; [assumption|]. exfalso.
    rewrite list_lookup_fmap in Hi, Hj.
    destruct (h !! i) as [ti|] eqn:Ei; [|discriminate].
    destruct (h !! j) as [tj|] eqn:Ej; [|discriminate].
    simpl in Hi, Hj. apply (Huniq i j ti tj Hne Ei Ej). congruence.
  - intros Hnd i j ti tj Hne Hi Hj Heq. apply Hne.
    apply (Hnd i j (order_id ti)); rewrite list_lookup_fmap.
    + now rewrite Hi.
    + now rewrite Hj, Heq.
Qed.

(** The claim of C5 fails: a BUY and the SELL that follows it, both with
    the draw 1234, leave two records with the order id [mock-1234]. *)
Lemma order_ids_collide :
  ~ unique_order_ids
      (trade_history
         (run [CallExecute "t0" 1234 1; CallExecute "t1" 1234 2] init)).
Proof.
  intros Huniq.
  set (h := trade_history _) in Huniq.
  assert (exists ti tj,
             h !! 0%nat = Some ti /\ h !! 1%nat = Some tj
             /\ order_id ti = "mock-1234" /\ order_id tj = "mock-1234")
    as (ti & tj & H0 & H1 & Hi & Hj)
    by (vm_compute; eauto 10).
  apply (Huniq 0%nat 1%nat ti tj); [lia | assumption | assumption |].
  now rewrite Hi, Hj.
Qed.

(** C5, amended. The order ids of the trade history are, in order, the
    ids [mock-n] made from the numbers [n] that the run drew for its
    trades; so the order ids are pairwise distinct exactly when those
    numbers are. *)
Theorem order_ids_follow_draws (cs : list call) :
  let h := trade_history (run cs init) in
  order_id <$> h = mock_order_id <$> draws cs init
  /\ (unique_order_ids h <-> NoDup (draws cs init)).
Proof.
  intros h.
  assert (order_id <$> h = mock_order_id <$> draws cs init) as Hids.
  { destruct (run_trade_history cs init) as (newer & Hh & Hid).
    subst h. rewrite Hh. exact Hid. }
  split; [exact Hids|].
  rewrite unique_order_ids_NoDup, Hids.
  apply NoDup_fmap. apply mock_order_id_inj.
Qed.

(** ** Reading the histories *)

(** The claim of C7 fails at [limit = 0]: with one trade recorded,
    [get_trades(0)] returns that trade, not the most recent zero
    records. *)
Lemma get_trades_zero_limit :
  length (get_trades (Some 0%Z) (run [CallExecute "t0" 1234 1] init)) = 1%nat
  /\ spec_tail 0 (trade_history (run [CallExecute "t0" 1234 1] init)) = []
  /\ get_trades (Some 0%Z) (run [CallExecute "t0" 1234 1] init)
     <> spec_tail 0 (trade_history (run [CallExecute "t0" 1234 1] init)).
Proof.
  split; [reflexivity|]. split; [reflexivity|].
  intros H. apply (f_equal length) in H. vm_compute in H. discriminate.
Qed.

Lemma py_slice_spec_tail {A} (limit : Z) (buf : list A) :
  (0 < limit)%Z -> py_slice_from (- limit) buf = spec_tail limit buf.
Proof.
  intros Hpos. unfold spec_tail.
  destruct (Z.ltb_spec (Z.of_nat (length buf)) limit) as [Hshort | Hlong].
  - apply py_slice_short. lia.
  - now apply py_slice_last.
Qed.

(** C7, amended. For every limit of at least 1, [get_trades(limit)] and
    [get_performance(limit)] return the most recent [limit] records in
    insertion order, and the whole history when it holds fewer: the
    result is the end of the history and has [min(limit, length)]
    entries.  Without a limit, [get_trades] uses 50 and [get_performance]
    uses 200. *)
Theorem tail_of_positive_limit (limit : Z) (s : bot) :
  (0 < limit)%Z ->
  get_trades (Some limit) s = spec_tail limit (trade_history s) /\
  get_performance (Some limit) s = spec_tail limit (performance_history s) /\
  (exists older, trade_history s = older ++ get_trades (Some limit) s) /\
  (exists older,
     performance_history s = older ++ get_performance (Some limit) s) /\
  length (get_trades (Some limit) s)
  = Nat.min (Z.to_nat limit) (length (trade_history s)) /\
  length (get_performance (Some limit) s)
  = Nat.min (Z.to_nat limit) (length (performance_history s)) /\
  get_trades None s = get_trades (Some 50%Z) s /\
  get_performance None s = get_performance (Some 200%Z) s.
Proof.
  intros Hpos. unfold get_trades, get_performance. simpl.
  rewrite <- !py_slice_spec_tail by assumption.
  rewrite !py_slice_length by assumption.
  rewrite !py_slice_last by assumption.
  repeat split.
  - exists (take (length (trade_history s) - Z.to_nat limit) (trade_history s)).
    now rewrite take_drop.
  - exists (take (length (performance_history s) - Z.to_nat limit)
              (performance_history s)).
    now rewrite take_drop.
Qed.

Lemma tail_of_positive_limit_witness :
  get_trades (Some 1%Z)
    (run [CallExecute "t0" 1234 1; CallExecute "t1" 1235 2] init)
  = spec_tail 1
      (trade_history
         (run [CallExecute "t0" 1234 1; CallExecute "t1" 1235 2] init))
  /\ length (get_trades (Some 1%Z)
               (run [CallExecute "t0" 1234 1; CallExecute "t1" 1235 2] init))
     = 1%nat.
Proof.
  assert (0 < 1)%Z as Hpos by reflexivity.
  destruct (tail_of_positive_limit 1
              (run [CallExecute "t0" 1234 1; CallExecute "t1" 1235 2] init)
              Hpos) as (Ht & _ & _ & _ & Hlen & _).
  split; [exact Ht|]. rewrite Hlen. reflexivity.
Defined.

(** C9. With [limit = 0], [get_trades] and [get_performance] return the
    whole of their history. *)
Theorem zero_limit_returns_whole_history (s : bot) :
  get_trades (Some 0%Z) s = trade_history s
  /\ get_performance (Some 0%Z) s = performance_history s.
Proof.
  unfold get_trades, get_performance. simpl.
  split; apply py_slice_zero.
Qed.

(** A negative limit drops that many of the oldest records. *)
Lemma negative_limit_drops_oldest (limit : Z) (s : bot) :
  (limit < 0)%Z ->
  get_trades (Some limit) s = drop (Z.to_nat (- limit)) (trade_history s).
Proof.
  intros Hneg. unfold get_trades. simpl. now apply py_slice_neg.
Qed.

(** ** The lifecycle *)

Lemma start_already_running (s : bot) :
  is_running s = true -> start s = (AlreadyRunning, s).
Proof.
  intros H. unfold start. now rewrite H.
Qed.

Lemma start_never_initialized : fst (start init) = NotConfigured.
Proof. reflexivity. Qed.

(** After [initialize] with a configuration that has at least one entry,
    [start] succeeds when no loop is active, and raises the running
    flag. *)
Lemma start_after_initialize (cfg : gmap string cfg_value) (s : bot) :
  cfg <> ∅ -> is_running s = false ->
  let s1 := snd (initialize cfg s) in
  fst (start s1) = Success "Mock bot started"
  /\ is_running (snd (start s1)) = true.
Proof.
  intros Hcfg Hrun. unfold start, initialize. simpl. rewrite Hrun.
  destruct (Nat.eqb_spec (size cfg) 0) as [Hsize | Hsize].
  - apply map_size_empty_iff in Hsize. contradiction.
  - split; reflexivity.
Qed.

(** C2 at the configuration [{}]: [initialize] confirms and sets the
    status to initialized, no loop is active, and yet [start] answers
    NotConfigured and leaves the running flag down. *)
Theorem start_after_initialize_empty :
  fst (initialize ∅ init) = Success "Mock bot initialized"
  /\ st_status (get_state (snd (initialize ∅ init))) = initialized
  /\ is_running (snd (initialize ∅ init)) = false
  /\ fst (start (snd (initialize ∅ init))) = NotConfigured
  /\ is_running (snd (start (snd (initialize ∅ init)))) = false.
Proof.
  repeat split.
Qed.

Lemma stop_not_running (s : bot) :
  is_running s = false -> stop s = (NotRunning, s).
Proof.
  intros H. unfold stop. now rewrite H.
Qed.

(** * Further properties of the engine *)

(** ** What a trade is worth *)

Lemma worth_after_step (c : call) (s : bot) :
  worth (step c s) == worth s + worth_change c s.
Proof.
  unfold worth. destruct c; simpl.
  - ring.
  - unfold start. destruct (is_running s); [simpl; ring|].
    destruct (size (config s) =? 0)%nat; simpl; ring.
  - unfold stop. destruct (is_running s); simpl; ring.
  - ring.
  - destruct (execute_mock_trade_cases timestamp n action s)
      as [_ _ _ | _ _ _ _ | _ Hflat _ _ k t | _ _ revenue basis t | _ _];
      simpl; try ring.
    + rewrite Hflat. simpl. ring.
    + subst revenue. ring.
  - destruct (update_state now1 now2 s) as [s'|e] eqn:E; simpl; [|ring].
    rewrite (update_state_frame _ _ _ _ E). simpl. ring.
  - ring.
Qed.

(** X1. Every call accounts for the worth of the position: a trade is
    made at the current price and moves value between cash and shares
    without creating or losing any, and a price move changes the worth
    by the move of the shares held. *)
Theorem step_worth (c : call) (s : bot) :
  worth (step c s) == worth s + worth_change c s.
Proof.
  apply worth_after_step.
Qed.

Lemma sell_effect (timestamp : string) (n : Z) (s : bot) :
  (0 < shares_held s)%Z ->
  exists s' t,
    execute_mock_trade timestamp n 2 s = Ok s' /\
    cash s' = cash s + inject_Z (shares_held s) * current_price s /\
    shares_held s' = 0%Z /\
    current_price s' = current_price s /\
    trade_history s' = trade_history s ++ [t] /\
    tr_timestamp t = timestamp /\ tr_action t = SELL /\
    tr_shares t = shares_held s /\ tr_price t = current_price s /\
    order_id t = mock_order_id n /\ is_Some (profit t) /\
    last_action (bot_state s') = SELL /\
    performance_history s' = performance_history s.
Proof.
  intros Hheld.
  destruct (execute_mock_trade_cases timestamp n 2 s)
    as [Hbuy | Hbuy | Hbuy | _ _ revenue basis t | _ Hhold];
    try discriminate.
  - eexists _, t. split; [reflexivity|]. simpl. repeat split. eauto.
  - exfalso. apply Hhold. now split.
Qed.

(** X2. A SELL of an open position adds the revenue
    [shares_held * current_price] to the cash, closes the position,
    keeps the price, appends one SELL record for the shares held at the
    current price, and sets [last_action] to SELL. *)
Theorem execute_sell_when_holding (timestamp : string) (n : Z) (s : bot) :
  (0 < shares_held s)%Z ->
  exists s' t,
    execute_mock_trade timestamp n 2 s = Ok s' /\
    cash s' = cash s + inject_Z (shares_held s) * current_price s /\
    shares_held s' = 0%Z /\
    current_price s' = current_price s /\
    trade_history s' = trade_history s ++ [t] /\
    tr_timestamp t = timestamp /\ tr_action t = SELL /\
    tr_shares t = shares_held s /\ tr_price t = current_price s /\
    order_id t = mock_order_id n /\ is_Some (profit t) /\
    last_action (bot_state s') = SELL /\
    performance_history s' = performance_history s.
Proof.
  apply sell_effect.
Qed.

Lemma execute_sell_when_holding_witness :
  exists s' t,
    execute_mock_trade "t1" 1235 2 (run [CallExecute "t0" 1234 1] init) = Ok s'
    /\ shares_held s' = 0%Z
    /\ tr_shares t = 54%Z
    /\ cash s' == 10000.
Proof.
  assert (0 < shares_held (run [CallExecute "t0" 1234 1] init))%Z as Hheld
    by reflexivity.
  destruct (execute_sell_when_holding "t1" 1235 _ Hheld)
    as (s' & t & Hs' & Hcash & Hsh & _ & _ & _ & _ & Ht & _).
  exists s', t. repeat split; try assumption.
  rewrite Hcash. reflexivity.
Defined.

(** X3. An executed action appends a trade record in two cases only: a
    BUY on a flat position whose price is not zero and is at most 95% of
    the cash, and a SELL of an open position.  In every other case (BUY
    while holding, SELL while flat, any other action code, a BUY that
    cannot afford a share or that divides by a zero price) the cash, the
    shares and the trade history stay as they were. *)
Theorem execute_trades_iff (timestamp : string) (n action : Z) (s : bot) :
  let s' := step (CallExecute timestamp n action) s in
  let trades :=
    (action = 1%Z /\ shares_held s = 0%Z /\ ~ current_price s == 0
     /\ 1 <= cash s * 0.95 / current_price s)
    \/ (action = 2%Z /\ (0 < shares_held s)%Z) in
  (trades -> exists t, trade_history s' = trade_history s ++ [t]) /\
  (~ trades ->
   trade_history s' = trade_history s /\ cash s' = cash s
   /\ shares_held s' = shares_held s).
Proof.
  intros s' trades. subst s' trades. simpl. fold (buy_quote s).
  destruct (execute_mock_trade_cases timestamp n action s)
    as [Ha Hflat Hz | Ha Hflat Hnz Hk | Ha Hflat Hnz Hk k t
        | Ha Hheld revenue basis t | Hnb Hns]; simpl.
  - split; [|tauto]. intros [(_ & _ & Hp & _) | (Ha2 & _)]; [contradiction | lia].
  - split; [|tauto]. intros [(_ & _ & _ & Hq) | (Ha2 & _)]; [|lia].
    apply affordable_iff in Hq. lia.
  - split; [intros _; now exists t|]. intros Hnot. exfalso. apply Hnot.
    left. repeat split; try assumption. now apply affordable_iff.
  - split; [intros _; now exists t|]. intros Hnot. exfalso. apply Hnot.
    right. now split.
  - split; [|tauto]. intros [(Ha1 & Hf & _) | (Ha2 & Hh)]; tauto.
Qed.

(** X4. A BUY on a flat position with cash [>= 0] and a positive price
    goes through exactly when one share costs at most 95% of the cash.
    It then leaves at least 5% of the cash, and less than 5% of the cash
    plus the price of one share; otherwise it changes nothing. *)
Theorem buy_keeps_reserve (timestamp : string) (n : Z) (s : bot) :
  shares_held s = 0%Z -> 0 <= cash s -> 0 < current_price s ->
  let s' := step (CallExecute timestamp n 1) s in
  (current_price s <= cash s * 0.95 ->
   (0 < shares_held s')%Z
   /\ cash s * 0.05 <= cash s'
   /\ cash s' < cash s * 0.05 + current_price s) /\
  (cash s * 0.95 < current_price s -> s' = s).
Proof.
  intros Hflat Hcash Hprice s'. subst s'. simpl.
  assert (~ current_price s == 0) as Hne by lra.
  assert (buy_quote s * current_price s == cash s * 0.95) as Hq
    by (unfold buy_quote; field; exact Hne).
  assert (1 <= buy_quote s <-> current_price s <= cash s * 0.95) as Hone.
  { split; intros H.
    - apply (Qmult_le_compat_r _ _ (current_price s)) in H; lra.
    - unfold buy_quote. apply Qle_shift_div_l; lra. }
  destruct (execute_mock_trade_cases timestamp n 1 s)
    as [_ _ Hz | _ _ _ Hk | _ _ _ Hk k t | Ha | Hnb _]; simpl.
  - contradiction.
  - split; [|reflexivity]. intros Hle. apply Hone, affordable_iff in Hle. lia.
  - split.
    + intros _. subst k. split; [assumption|].
      assert (0 <= buy_quote s) as Hq0 by (apply affordable_iff in Hk; lra).
      pose proof (py_int_le _ Hq0) as Hlow.
      apply (Qmult_le_compat_r _ _ (current_price s)) in Hlow; [|lra].
      pose proof (Qlt_floor (buy_quote s)) as Hup.
      rewrite <- (py_int_of_pos _ Hk) in Hup.
      rewrite inject_Z_plus in Hup.
      apply (Qmult_lt_compat_r _ _ (current_price s)) in Hup; [|assumption].
      change (inject_Z 1) with 1 in Hup. split; lra.
    + intros Hlt. apply affordable_iff, Hone in Hk. lra.
  - discriminate.
  - exfalso. apply Hnb. now split.
Qed.

Lemma buy_keeps_reserve_witness :
  (0 < shares_held (step (CallExecute "t0" 1234 1) init))%Z
  /\ 500 <= cash (step (CallExecute "t0" 1234 1) init)
  /\ cash (step (CallExecute "t0" 1234 1) init) < 675.
Proof.
  assert (shares_held init = 0%Z) as Hflat by reflexivity.
  assert (0 <= cash init) as Hcash by (vm_compute; discriminate).
  assert (0 < current_price init) as Hprice by reflexivity.
  destruct (buy_keeps_reserve "t0" 1234 init Hflat Hcash Hprice)
    as [Hbuy _].
  destruct Hbuy as (Hsh & Hlow & Hup); [vm_compute; discriminate|].
  split; [exact Hsh|]. split.
  - apply Qle_trans with (cash init * 0.05); [vm_compute; discriminate|].
    exact Hlow.
  - apply Qlt_le_trans with (cash init * 0.05 + current_price init);
      [exact Hup | vm_compute; discriminate].
Defined.

(** X5. A BUY on a flat position followed by a SELL at the same price
    gives back the cash: the position is flat again and the cash is what
    it was, whether or not the BUY went through. *)
Theorem buy_then_sell_restores_cash
    (t1 t2 : string) (n1 n2 : Z) (s : bot) :
  shares_held s = 0%Z ->
  let s2 := run [CallExecute t1 n1 1; CallExecute t2 n2 2] s in
  shares_held s2 = 0%Z /\ cash s2 == cash s
  /\ current_price s2 = current_price s.
Proof.
  intros Hflat s2. subst s2. simpl.
  set (s1 := recover (execute_mock_trade t1 n1 1 s) s).
  pose proof (worth_after_step (CallExecute t1 n1 1) s) as H1.
  pose proof (worth_after_step (CallExecute t2 n2 2) s1) as H2.
  simpl in H1, H2. fold s1 in H1.
  set (s2 := recover (execute_mock_trade t2 n2 2 s1) s1) in *.
  assert (current_price s1 = current_price s /\ (0 <= shares_held s1)%Z)
    as [Hp1 Hs1].
  { subst s1.
    destruct (execute_mock_trade_cases t1 n1 1 s)
      as [_ _ _ | _ _ _ _ | _ _ _ Hk k t | Ha | _ _]; simpl;
      split; (reflexivity || lia). }
  assert (current_price s2 = current_price s1 /\ shares_held s2 = 0%Z)
    as [Hp2 Hs2].
  { subst s2.
    destruct (execute_mock_trade_cases t2 n2 2 s1)
      as [Ha | Ha | Ha | _ _ revenue basis t | _ Hns]; simpl;
      try discriminate; try (split; reflexivity).
    split; [reflexivity|].
    destruct (Z.eq_dec (shares_held s1) 0%Z) as [|Hne]; [assumption|].
    exfalso. apply Hns. split; [reflexivity | lia]. }
  split; [exact Hs2|]. split; [|congruence].
  unfold worth in H1, H2. rewrite Hs2 in H2. rewrite Hflat in H1.
  change (inject_Z 0) with 0 in H1, H2.
  transitivity (cash s2 + 0 * current_price s2); [ring|].
  rewrite H2, H1. ring.
Qed.

Lemma buy_then_sell_restores_cash_witness :
  shares_held (run [CallExecute "t0" 1234 1; CallExecute "t1" 1235 2] init)
  = 0%Z
  /\ cash (run [CallExecute "t0" 1234 1; CallExecute "t1" 1235 2] init)
     == cash init.
Proof.
  assert (shares_held init = 0%Z) as Hflat by reflexivity.
  destruct (buy_then_sell_restores_cash "t0" "t1" 1234 1235 init Hflat)
    as (Hsh & Hcash & _).
  split; assumption.
Defined.

(** X6. When the snapshot is fresh (its [portfolio_value] is the worth
    of the position), the price then moves by [change_percent] and the
    position is sold, the profit recorded is
    [shares_held * old price * change_percent]: the gain of that one
    move, whatever was paid for the shares. *)
Theorem sell_profit_is_last_move
    (timestamp : string) (n : Z) (change : Q) (s : bot) :
  (0 < shares_held s)%Z ->
  portfolio_value (bot_state s) == worth s ->
  exists s' t p,
    execute_mock_trade timestamp n 2 (simulate_price_movement change s)
    = Ok s' /\
    trade_history s' = trade_history s ++ [t] /\
    profit t = Some p /\
    p == inject_Z (shares_held s) * current_price s * change.
Proof.
  intros Hheld Hfresh.
  set (s1 := simulate_price_movement change s).
  assert (0 < shares_held s1)%Z as Hheld1 by exact Hheld.
  destruct (execute_mock_trade_cases timestamp n 2 s1)
    as [Ha | Ha | Ha | _ _ revenue basis t | _ Hns];
    try discriminate.
  - eexists _, t, (revenue - basis). split; [reflexivity|].
    split; [reflexivity|]. split; [reflexivity|].
    subst revenue basis s1. simpl. rewrite Z.max_l by lia.
    unfold worth in Hfresh. rewrite Hfresh.
    assert (~ inject_Z (shares_held s) == 0) as Hne
      by (unfold Qeq; simpl; lia).
    field. exact Hne.
  - exfalso. apply Hns. now split.
Qed.

Lemma sell_profit_is_last_move_witness :
  exists s' t p,
    execute_mock_trade "t5" 1235 2
      (simulate_price_movement 0.01
         (run [CallExecute "t0" 1234 1; CallSimulatePrice 0.1;
               CallUpdateState "t1" "t2"] init)) = Ok s' /\
    profit t = Some p /\ p == 103.95.
Proof.
  assert (0 < shares_held
                (run [CallExecute "t0" 1234 1; CallSimulatePrice 0.1;
                      CallUpdateState "t1" "t2"] init))%Z as Hheld
    by reflexivity.
  assert (portfolio_value
            (bot_state
               (run [CallExecute "t0" 1234 1; CallSimulatePrice 0.1;
                     CallUpdateState "t1" "t2"] init))
          == worth (run [CallExecute "t0" 1234 1; CallSimulatePrice 0.1;
                         CallUpdateState "t1" "t2"] init)) as Hfresh
    by reflexivity.
  destruct (sell_profit_is_last_move "t5" 1235 0.01 _ Hheld Hfresh)
    as (s' & t & p & Hs' & _ & Hp & Heq).
  exists s', t, p. repeat split; try assumption.
  rewrite Heq. reflexivity.
Defined.

(** ** The shape of the trade history *)

Lemma step_ledger (c : call) (s : bot) :
  ledger (trade_history s) (shares_held s) ->
  ledger (trade_history (step c s)) (shares_held (step c s)).
Proof.
  intros Hs. destruct c; simpl; try assumption.
  - unfold start. destruct (is_running s); [assumption|].
    now destruct (size (config s) =? 0)%nat.
  - unfold stop. now destruct (is_running s).
  - destruct (execute_mock_trade_cases timestamp n action s)
      as [_ _ _ | _ _ _ _ | _ Hflat _ Hk k t | _ Hheld revenue basis t | _ _];
      simpl; try assumption.
    + rewrite Hflat in Hs. now apply (ledger_buy _ t).
    + apply (ledger_sell _ t (shares_held s)); try assumption;
        (reflexivity || eauto).
  - destruct (update_state now1 now2 s) as [s'|e] eqn:E; [|assumption].
    simpl. now rewrite (update_state_frame _ _ _ _ E).
Qed.

Lemma ledger_parity (h : list trade) (k : Z) :
  ledger h k -> Nat.even (length h) = (k =? 0)%Z /\ (0 <= k)%Z.
Proof.
  induction 1 as [|h t _ [IH _] _ Hpos _|h t k _ [IH _] Hpos _ _ _].
  - split; [reflexivity | lia].
  - rewrite length_app, Nat.add_1_r, Nat.even_succ, <- Nat.negb_even, IH.
    destruct (Z.eqb_spec (tr_shares t) 0); [lia|]. split; [reflexivity | lia].
  - rewrite length_app, Nat.add_1_r, Nat.even_succ, <- Nat.negb_even, IH.
    destruct (Z.eqb_spec k 0); [lia|]. split; [reflexivity | lia].
Qed.

Lemma ledger_actions (h : list trade) (k : Z) :
  ledger h k ->
  forall (i : nat) (t : trade),
    h !! i = Some t ->
    tr_action t = (if Nat.even i then BUY else SELL) /\ (0 < tr_shares t)%Z.
Proof.
  induction 1 as [|h t Hh IH Hact Hpos _|h t k Hh IH Hpos Hact Hsh _];
    intros i u Hi.
  - discriminate.
  - destruct (lookup_app_Some h [t] i u) as [[Hl | [Hge Hl]] _];
      [exact Hi | now apply IH |].
    destruct (i - length h)%nat as [|j] eqn:Ej; [|discriminate].
    injection Hl as <-. assert (i = length h) as -> by lia.
    destruct (ledger_parity _ _ Hh) as [-> _]. now split.
  - destruct (lookup_app_Some h [t] i u) as [[Hl | [Hge Hl]] _];
      [exact Hi | now apply IH |].
    destruct (i - length h)%nat as [|j] eqn:Ej; [|discriminate].
    injection Hl as <-. assert (i = length h) as -> by lia.
    destruct (ledger_parity _ _ Hh) as [-> _].
    destruct (Z.eqb_spec k 0); [lia|]. split; [assumption | lia].
Qed.

(** X7. The trade history of every run from the initial state is a
    ledger that leaves [shares_held] open: BUY and SELL records
    alternate, starting with a BUY, every record is for a positive
    number of shares, each SELL closes exactly the shares of the BUY
    before it, and only SELL records carry a profit.  So the record at
    an even position is a BUY and at an odd position a SELL, and the
    position is flat exactly when the number of records is even. *)
Theorem trade_history_is_ledger (cs : list call) :
  let s := run cs init in
  ledger (trade_history s) (shares_held s) /\
  (forall (i : nat) (t : trade),
     trade_history s !! i = Some t ->
     tr_action t = (if Nat.even i then BUY else SELL)
     /\ (0 < tr_shares t)%Z) /\
  Nat.even (length (trade_history s)) = (shares_held s =? 0)%Z.
Proof.
  intros s.
  assert (ledger (trade_history s) (shares_held s)) as Hl.
  { apply (run_invariant
             (fun s' => ledger (trade_history s') (shares_held s'))
             (fun _ => True)).
    - intros c s' _. apply step_ledger.
    - now apply Forall_forall.
    - apply ledger_nil. }
  split; [exact Hl|]. split.
  - apply (ledger_actions _ _ Hl).
  - apply (ledger_parity _ _ Hl).
Qed.

(** ** The refreshed snapshot and the samples *)

Lemma update_state_position (now1 now2 : string) (s s' : bot) :
  update_state now1 now2 s = Ok s' ->
  ((shares_held s <= 0)%Z -> current_position (bot_state s') = None) /\
  ((0 < shares_held s)%Z ->
   exists p,
     current_position (bot_state s') = Some p /\
     qty p = shares_held s /\
     avg_entry_price p = current_price s /\
     pos_current_price p = current_price s /\
     market_value p = inject_Z (shares_held s) * current_price s /\
     unrealized_pl p == 0).
Proof.
  unfold update_state.
  destruct (py_div _ _) as [ratio|e]; simpl; [|discriminate].
  intros [= <-]. simpl.
  destruct (Z.ltb_spec 0 (shares_held s)) as [Hpos | Hle].
  - split; [lia|]. intros _. eexists. split; [reflexivity|]. simpl.
    repeat split. ring.
  - split; [reflexivity | lia].
Qed.

(** X8. After a refresh of any reachable state the snapshot has no
    [current_position] when the position is flat; when shares are held
    it has one whose [qty] is [shares_held], whose [avg_entry_price] and
    [current_price] are both the current price, whose [market_value] is
    [shares_held * current_price] and whose [unrealized_pl] is zero. *)
Theorem refreshed_position (cs : list call) (now1 now2 : string) :
  let s := run cs init in
  let b := get_state (step (CallUpdateState now1 now2) s) in
  (shares_held s = 0%Z -> current_position b = None) /\
  ((0 < shares_held s)%Z ->
   exists p,
     current_position b = Some p /\
     qty p = shares_held s /\
     avg_entry_price p = current_price s /\
     pos_current_price p = current_price s /\
     market_value p = inject_Z (shares_held s) * current_price s /\
     unrealized_pl p == 0).
Proof.
  intros s b. subst b. simpl.
  destruct (update_state_total now1 now2 s) as [s' Hs'].
  { unfold s. rewrite run_initial_value. discriminate. }
  rewrite Hs'. simpl. unfold get_state.
  destruct (update_state_position _ _ _ _ Hs') as [Hflat Hheld].
  split; [|exact Hheld]. intros H0. apply Hflat. lia.
Qed.

Lemma step_balanced (c : call) (s : bot) :
  Forall balanced (performance_history s) ->
  Forall balanced (performance_history (step c s)).
Proof.
  intros Hs.
  destruct (step_performance_history c s) as [[_ ->] | (x & Hx & ->)];
    [assumption|].
  unfold keep_last. apply Forall_drop, Forall_app. split; [assumption|].
  apply Forall_singleton.
  destruct c; try discriminate. simpl in Hx.
  destruct (update_state now1 now2 s) as [s'|e] eqn:E; [|discriminate].
  destruct (update_state_history _ _ _ _ E) as (y & _ & Hpv & Hc & Hp & Hh).
  destruct (update_state_snapshot _ _ _ _ E) as (Hsnap & _).
  cbv zeta in Hh, Hsnap.
  fold (keep_last 1000 (performance_history s ++ [y])) in Hh.
  rewrite Hh, keep_last_last in Hx by lia. injection Hx as <-.
  unfold balanced. rewrite Hpv, Hc, Hp, Hsnap. reflexivity.
Qed.

(** X9. Every sample in the performance history of every run from the
    initial state adds up: its [portfolio_value] is its [cash] plus its
    [position_value]. *)
Theorem performance_samples_balanced (cs : list call) :
  Forall balanced (performance_history (run cs init)).
Proof.
  apply (run_invariant (fun s => Forall balanced (performance_history s))
           (fun _ => True)).
  - intros c s _. apply step_balanced.
  - now apply Forall_forall.
  - apply Forall_nil_2.
Qed.

(** ** The price *)

Lemma step_price (c : call) (s : bot) :
  current_price (step c s) == current_price s * price_factor [c].
Proof.
  destruct c; simpl; try ring.
  - unfold start. destruct (is_running s); [simpl; ring|].
    destruct (size (config s) =? 0)%nat; simpl; ring.
  - unfold stop. destruct (is_running s); simpl; ring.
  - destruct (execute_mock_trade timestamp n action s) as [s'|e] eqn:E;
      simpl; [|ring].
    rewrite (execute_frame _ _ _ _ _ E). simpl. ring.
  - destruct (update_state now1 now2 s) as [s'|e] eqn:E; simpl; [|ring].
    rewrite (update_state_frame _ _ _ _ E). simpl. ring.
Qed.

Lemma price_factor_cons (c : call) (cs : list call) :
  price_factor (c :: cs) == price_factor [c] * price_factor cs.
Proof.
  destruct c; simpl; ring.
Qed.

(** X10. Only [simulate_price_movement] moves the price: after any run
    the price is the price before it times the product of the factors
    [1 + change_percent] of its price moves.  From the initial state it
    is 175 times that product, and a price of zero stays zero. *)
Theorem price_is_product_of_factors (cs : list call) (s : bot) :
  current_price (run cs s) == current_price s * price_factor cs /\
  current_price (run cs init) == 175 * price_factor cs /\
  (current_price s == 0 -> current_price (run cs s) == 0).
Proof.
  assert (forall s0, current_price (run cs s0)
                     == current_price s0 * price_factor cs) as H.
  { induction cs as [|c cs IH]; intros s0; simpl run.
    - simpl. ring.
    - rewrite IH, step_price, (price_factor_cons c cs). ring. }
  split; [apply H|]. split.
  - rewrite H. simpl. apply Qmult_comp; reflexivity.
  - intros Hz. rewrite H, Hz. ring.
Qed.

(** ** The lifecycle, continued *)

(** X11. With a configuration that has at least one entry and no loop
    active: [start] succeeds and raises the running flag; a second
    [start] answers AlreadyRunning and changes nothing; [stop] succeeds,
    lowers the flag and sets the status to stopped; a second [stop]
    answers NotRunning and changes nothing; and [start] succeeds again
    without a new [initialize]. *)
Theorem lifecycle_sequence (cfg : gmap string cfg_value) (s : bot) :
  cfg <> ∅ -> is_running s = false ->
  let s1 := snd (initialize cfg s) in
  let s2 := snd (start s1) in
  let s3 := snd (stop s2) in
  fst (start s1) = Success "Mock bot started" /\
  is_running s2 = true /\
  start s2 = (AlreadyRunning, s2) /\
  fst (stop s2) = Success "Mock bot stopped" /\
  is_running s3 = false /\
  st_status (get_state s3) = stopped /\
  stop s3 = (NotRunning, s3) /\
  fst (start s3) = Success "Mock bot started" /\
  is_running (snd (start s3)) = true.
Proof.
  intros Hcfg Hrun s1 s2 s3. subst s1 s2 s3.
  assert ((size cfg =? 0)%nat = false) as Hsize.
  { apply Nat.eqb_neq. intros H. now apply map_size_empty_iff in H. }
  unfold start, stop, initialize. simpl. rewrite Hrun, Hsize. simpl.
  rewrite Hsize. simpl. repeat split.
Qed.

Lemma lifecycle_sequence_witness :
  fst (start (snd (initialize {[ "ticker" := CfgStr "AAPL" ]} init)))
  = Success "Mock bot started"
  /\ fst (start (snd (start (snd (initialize
                                    {[ "ticker" := CfgStr "AAPL" ]} init)))))
     = AlreadyRunning.
Proof.
  assert (({[ "ticker" := CfgStr "AAPL" ]} : gmap string cfg_value) <> ∅)
    as Hcfg.
  { intros H. apply (f_equal size) in H. vm_compute in H. discriminate. }
  assert (is_running init = false) as Hrun by reflexivity.
  destruct (lifecycle_sequence _ init Hcfg Hrun)
    as (Hstart & _ & Hagain & _).
  split; [exact Hstart|]. cbv zeta in Hagain. now rewrite Hagain.
Defined.

(** X12. The calls of the lifecycle ([initialize], [start], [stop] and
    the loop test) never touch the portfolio: cash, shares, price, both
    histories and the amounts of the snapshot stay as they were, so a
    stop does not reset the position and a restart goes on from it. *)
Theorem lifecycle_keeps_portfolio (c : call) (s : bot) :
  lifecycle_call c = true ->
  let s' := step c s in
  cash s' = cash s /\ shares_held s' = shares_held s /\
  current_price s' = current_price s /\
  initial_value s' = initial_value s /\
  trade_history s' = trade_history s /\
  performance_history s' = performance_history s /\
  portfolio_value (get_state s') = portfolio_value (get_state s) /\
  total_pl (get_state s') = total_pl (get_state s) /\
  current_position (get_state s') = current_position (get_state s) /\
  last_action (get_state s') = last_action (get_state s).
Proof.
  intros Hc s'. subst s'. destruct c; try discriminate; simpl.
  - repeat split.
  - unfold start. destruct (is_running s); [repeat split|].
    destruct (size (config s) =? 0)%nat; repeat split.
  - unfold stop. destruct (is_running s); repeat split.
  - repeat split.
Qed.

Lemma lifecycle_keeps_portfolio_witness :
  cash (step CallStop
          (run [CallInitialize {[ "ticker" := CfgStr "AAPL" ]}; CallStart;
                CallExecute "t0" 1234 1] init))
  = cash (run [CallInitialize {[ "ticker" := CfgStr "AAPL" ]}; CallStart;
               CallExecute "t0" 1234 1] init)
  /\ is_running
       (step CallStop
          (run [CallInitialize {[ "ticker" := CfgStr "AAPL" ]}; CallStart;
                CallExecute "t0" 1234 1] init)) = false.
Proof.
  assert (lifecycle_call CallStop = true) as Hc by reflexivity.
  destruct (lifecycle_keeps_portfolio CallStop
              (run [CallInitialize {[ "ticker" := CfgStr "AAPL" ]}; CallStart;
                    CallExecute "t0" 1234 1] init) Hc) as (Hcash & _).
  split; [exact Hcash | reflexivity].
Defined.

(** ** One pass through the loop *)

(** The position after an iteration is the one its trade left. *)
Lemma iteration_position (i : tick_input) (s : bot) :
  let s1 := simulate_price_movement (change_percent i) (set_status active s) in
  let s2 := recover
              (execute_mock_trade (trade_time i) (order_draw i)
                 (make_trading_decision (decision_draw i) s1) s1) s1 in
  let s' := trading_loop_iteration i s in
  cash s' = cash s2 /\ shares_held s' = shares_held s2 /\
  current_price s' = current_price s2 /\
  trade_history s' = trade_history s2 /\
  last_action (bot_state s') = last_action (bot_state s2) /\
  is_running s' = is_running s /\ config s' = config s.
Proof.
  intros s1 s2 s'. subst s' s2. unfold trading_loop_iteration. fold s1.
  destruct (execute_mock_trade (trade_time i) (order_draw i)
              (make_trading_decision (decision_draw i) s1) s1)
    as [s2|e] eqn:E; simpl; [|repeat split].
  assert (is_running s2 = is_running s /\ config s2 = config s) as [Hr Hc]
    by (rewrite (execute_frame _ _ _ _ _ E); split; reflexivity).
  destruct (update_state (update_time i) (sample_time i) s2)
    as [s3|e] eqn:E3; [|repeat split; assumption].
  destruct (update_state_snapshot _ _ _ _ E3) as (_ & _ & _ & _ & _ & Hla & _).
  rewrite Hla, (update_state_frame _ _ _ _ E3). simpl.
  repeat split; assumption.
Qed.

(** X13. A pass through the loop whose BUY divides by a zero price is
    cut short by the [except] clause: on a flat position, when the moved
    price is zero and the draw is below 0.2, the pass keeps the status
    and the moved price and nothing else; no trade is recorded, the
    snapshot is not refreshed and no sample is appended. *)
Theorem tick_skipped_on_zero_price (i : tick_input) (s : bot) :
  is_running s = true ->
  shares_held s = 0%Z ->
  current_price s * (1 + change_percent i) == 0 ->
  decision_draw i < 0.2 ->
  let s' := trading_loop_step i s in
  s' = simulate_price_movement (change_percent i) (set_status active s) /\
  trade_history s' = trade_history s /\
  performance_history s' = performance_history s /\
  last_update (get_state s') = last_update (get_state s) /\
  portfolio_value (get_state s') = portfolio_value (get_state s).
Proof.
  intros Hrun Hflat Hzero Hdraw s'. subst s'.
  unfold trading_loop_step, trading_loop_iteration. rewrite Hrun.
  set (s1 := simulate_price_movement (change_percent i) (set_status active s)).
  assert (make_trading_decision (decision_draw i) s1 = 1%Z) as ->.
  { rewrite decision_flat by exact Hflat.
    apply Qltb_lt in Hdraw. now rewrite Hdraw. }
  rewrite (execute_buy_zero_price (trade_time i) (order_draw i) s1);
    [repeat split | exact Hflat | exact Hzero].
Qed.

Lemma tick_skipped_on_zero_price_witness :
  performance_history
    (trading_loop_step
       {| change_percent := -1; decision_draw := 0.1; order_draw := 1234;
          trade_time := "t0"; update_time := "t1"; sample_time := "t2" |}
       (run [CallInitialize {[ "ticker" := CfgStr "AAPL" ]}; CallStart] init))
  = []
  /\ current_price
       (trading_loop_step
          {| change_percent := -1; decision_draw := 0.1; order_draw := 1234;
             trade_time := "t0"; update_time := "t1"; sample_time := "t2" |}
          (run [CallInitialize {[ "ticker" := CfgStr "AAPL" ]}; CallStart]
             init)) == 0.
Proof.
  set (i := {| change_percent := -1; decision_draw := 0.1;
               order_draw := 1234; trade_time := "t0";
               update_time := "t1"; sample_time := "t2" |}).
  set (s := run [CallInitialize {[ "ticker" := CfgStr "AAPL" ]}; CallStart]
              init).
  assert (is_running s = true) as Hrun by reflexivity.
  assert (shares_held s = 0%Z) as Hflat by reflexivity.
  assert (current_price s * (1 + change_percent i) == 0) as Hzero
    by reflexivity.
  assert (decision_draw i < 0.2) as Hdraw by reflexivity.
  destruct (tick_skipped_on_zero_price i s Hrun Hflat Hzero Hdraw)
    as (Hs' & _ & Hperf & _).
  split.
  - rewrite Hperf. reflexivity.
  - rewrite Hs'. reflexivity.
Defined.

(** X14. A pass through the loop from a reachable state whose moved
    price is not zero always gets to its refresh: the status is active,
    the price is the moved price, [last_update] is the clock reading of
    the refresh, one sample with the reading of the append goes to the
    end of the performance history (cut to its last 1000), at most one
    trade is appended, and the running flag and the configuration are
    not touched. *)
Theorem tick_refreshes (cs : list call) (i : tick_input) :
  is_running (run cs init) = true ->
  ~ current_price (run cs init) * (1 + change_percent i) == 0 ->
  let s := run cs init in
  let s' := trading_loop_step i s in
  st_status (get_state s') = active /\
  current_price s' = current_price s * (1 + change_percent i) /\
  last_update (get_state s') = Some (update_time i) /\
  (exists x,
     sm_timestamp x = sample_time i /\
     performance_history s'
     = keep_last 1000 (performance_history s ++ [x])) /\
  (exists newer,
     trade_history s' = trade_history s ++ newer
     /\ (length newer <= 1)%nat) /\
  is_running s' = true /\ config s' = config s.
Proof.
  intros Hrun Hprice s s'. subst s'. fold s in Hrun, Hprice.
  pose proof (iteration_position i s) as Hpos. cbv zeta in Hpos.
  unfold trading_loop_step. rewrite Hrun.
  destruct Hpos as (_ & _ & Hp & Hth & _ & Hr & Hc).
  unfold trading_loop_iteration in *.
  set (s1 := simulate_price_movement (change_percent i) (set_status active s))
    in *.
  assert (initial_value s1 = 10000%Z) as Hiv by apply run_initial_value.
  set (a := make_trading_decision (decision_draw i) s1) in *.
  destruct (step_trade_history (CallExecute (trade_time i) (order_draw i) a) s1)
    as (newer & Hnewer & Hids).
  assert (length newer <= 1)%nat as Hlen.
  { apply (f_equal length) in Hids. rewrite !length_fmap in Hids.
    rewrite Hids. unfold drawn.
    destruct (_ <? _)%nat; simpl; lia. }
  simpl in Hnewer.
  destruct (execute_mock_trade_cases (trade_time i) (order_draw i) a s1)
    as [_ _ Hz | _ _ _ _ | _ _ _ _ k t | _ _ revenue basis t | _ _];
    [contradiction | | | |].
  all: match goal with
       | |- context [update_state ?n1 ?n2 ?s2] =>
           assert (initial_value s2 = 10000%Z) as Hiv2 by exact Hiv;
           destruct (update_state_total n1 n2 s2) as [s3 E3];
             [rewrite Hiv2; discriminate|];
           rewrite E3 in *;
           destruct (update_state_snapshot _ _ _ _ E3)
             as (_ & _ & _ & _ & Hst & _ & Hlu & _);
           destruct (update_state_history _ _ _ _ E3)
             as (x & Hx & _ & _ & _ & Hh)
       end.
  all: cbv zeta in Hh; simpl in Hh, Hst, Hnewer.
  all: unfold get_state; rewrite Hst, Hlu.
  all: split; [reflexivity|]; split; [exact Hp|]; split; [reflexivity|].
  all: split; [exists x; split; [exact Hx | exact Hh] |].
  all: split; [exists newer; split; [rewrite Hth; exact Hnewer | exact Hlen] |].
  all: split; [rewrite Hr; exact Hrun | exact Hc].
Qed.

Lemma tick_refreshes_witness :
  st_status
    (get_state
       (trading_loop_step
          {| change_percent := 0.01; decision_draw := 0.1;
             order_draw := 4711; trade_time := "t0"; update_time := "t1";
             sample_time := "t2" |}
          (run [CallInitialize {[ "ticker" := CfgStr "AAPL" ]}; CallStart]
             init))) = active
  /\ last_update
       (get_state
          (trading_loop_step
             {| change_percent := 0.01; decision_draw := 0.1;
                order_draw := 4711; trade_time := "t0"; update_time := "t1";
                sample_time := "t2" |}
             (run [CallInitialize {[ "ticker" := CfgStr "AAPL" ]}; CallStart]
                init))) = Some "t1".
Proof.
  set (i := {| change_percent := 0.01; decision_draw := 0.1;
               order_draw := 4711; trade_time := "t0";
               update_time := "t1"; sample_time := "t2" |}).
  set (cs := [CallInitialize {[ "ticker" := CfgStr "AAPL" ]}; CallStart]).
  assert (is_running (run cs init) = true) as Hrun by reflexivity.
  assert (~ current_price (run cs init) * (1 + change_percent i) == 0)
    as Hprice by (intros H; vm_compute in H; discriminate).
  destruct (tick_refreshes cs i Hrun Hprice) as (Hst & _ & Hlu & _).
  split; [exact Hst | exact Hlu].
Defined.

(** X15. A pass through the loop does what the policy decided.  On a
    position with [shares_held >= 0]: when shares are held and the draw
    is below 0.15 the whole position is sold at the moved price and
    [last_action] is SELL; when the draw is not below the threshold
    (0.2 flat, 0.15 holding) the cash, the shares and the trade history
    stay as they were and [last_action] is HOLD; when the position is
    flat, the draw is below 0.2 and one share at the moved price costs
    at most 95% of the cash, shares are bought at the moved price and
    [last_action] is BUY. *)
Theorem tick_follows_policy (i : tick_input) (s : bot) :
  (0 <= shares_held s)%Z ->
  let s' := trading_loop_iteration i s in
  let price := current_price s * (1 + change_percent i) in
  ((0 < shares_held s)%Z -> decision_draw i < 0.15 ->
   shares_held s' = 0%Z /\ last_action (get_state s') = SELL /\
   exists t, trade_history s' = trade_history s ++ [t]
             /\ tr_action t = SELL /\ tr_shares t = shares_held s
             /\ tr_price t = price) /\
  ((shares_held s = 0%Z /\ 0.2 <= decision_draw i)
   \/ ((0 < shares_held s)%Z /\ 0.15 <= decision_draw i) ->
   shares_held s' = shares_held s /\ cash s' = cash s /\
   trade_history s' = trade_history s /\
   last_action (get_state s') = HOLD) /\
  (shares_held s = 0%Z -> decision_draw i < 0.2 ->
   ~ price == 0 -> 1 <= cash s * 0.95 / price ->
   (0 < shares_held s')%Z /\ last_action (get_state s') = BUY /\
   exists t, trade_history s' = trade_history s ++ [t]
             /\ tr_action t = BUY /\ tr_shares t = shares_held s'
             /\ tr_price t = price).
Proof.
  intros Hnonneg s' price. subst s' price.
  pose proof (iteration_position i s) as Hpos. cbv zeta in Hpos.
  destruct Hpos as (Hc & Hsh & _ & Hth & Hla & _).
  unfold get_state. rewrite Hsh, Hc, Hth, Hla. clear Hc Hsh Hth Hla.
  set (s1 := simulate_price_movement (change_percent i) (set_status active s)).
  assert (shares_held s1 = shares_held s) as Hs1 by reflexivity.
  split; [|split].
  - intros Hheld Hdraw.
    rewrite decision_holding by (rewrite Hs1; lia).
    apply Qltb_lt in Hdraw. rewrite Hdraw.
    destruct (sell_effect (trade_time i) (order_draw i) s1)
      as (s2 & t & -> & _ & Hsh & _ & Hth & _ & Hact & Hts & Htp & _ & _
          & Hla & _); [rewrite Hs1; exact Hheld|].
    simpl. split; [exact Hsh|]. split; [exact Hla|].
    exists t. repeat split; assumption.
  - intros [[Hflat Hdraw] | [Hheld Hdraw]].
    + rewrite decision_flat by (rewrite Hs1; exact Hflat).
      apply Qltb_ge in Hdraw. rewrite Hdraw.
      destruct (execute_mock_trade_cases (trade_time i) (order_draw i) 0 s1)
        as [Ha | Ha | Ha | Ha | _ _]; try discriminate.
      simpl. repeat split.
    + rewrite decision_holding by (rewrite Hs1; lia).
      apply Qltb_ge in Hdraw. rewrite Hdraw.
      destruct (execute_mock_trade_cases (trade_time i) (order_draw i) 0 s1)
        as [Ha | Ha | Ha | Ha | _ _]; try discriminate.
      simpl. repeat split.
  - intros Hflat Hdraw Hprice Hafford.
    rewrite decision_flat by (rewrite Hs1; exact Hflat).
    apply Qltb_lt in Hdraw. rewrite Hdraw.
    destruct (execute_mock_trade_cases (trade_time i) (order_draw i) 1 s1)
      as [_ _ Hz | _ _ _ Hk | _ _ _ Hk k t | Ha | Hnb _].
    + contradiction.
    + exfalso. apply (proj2 (affordable_iff s1)) in Hafford. lia.
    + simpl. split; [exact Hk|]. split; [reflexivity|].
      exists t. repeat split.
    + discriminate.
    + exfalso. apply Hnb. split; [reflexivity | exact Hflat].
Qed.

Lemma tick_follows_policy_witness :
  (0 < shares_held
         (trading_loop_iteration
            {| change_percent := 0.01; decision_draw := 0.1;
               order_draw := 4711; trade_time := "t0"; update_time := "t1";
               sample_time := "t2" |} init))%Z
  /\ last_action
       (get_state
          (trading_loop_iteration
             {| change_percent := 0.01; decision_draw := 0.1;
                order_draw := 4711; trade_time := "t0"; update_time := "t1";
                sample_time := "t2" |} init)) = BUY.
Proof.
  set (i := {| change_percent := 0.01; decision_draw := 0.1;
               order_draw := 4711; trade_time := "t0";
               update_time := "t1"; sample_time := "t2" |}).
  assert (0 <= shares_held init)%Z as Hnonneg by (vm_compute; discriminate).
  destruct (tick_follows_policy i init Hnonneg) as (_ & _ & Hbuy).
  destruct Hbuy as (Hsh & Hla & _).
  - reflexivity.
  - reflexivity.
  - intros H. vm_compute in H. discriminate.
  - vm_compute. discriminate.
  - split; [exact Hsh | exact Hla].
Defined.

(** ** Profit and loss *)

Lemma run_worth (cs : list call) (s : bot) :
  worth (run cs s) == worth s + gains cs s.
Proof.
  revert s. induction cs as [|c cs IH]; intros s; simpl.
  - ring.
  - rewrite IH, worth_after_step. ring.
Qed.

(** X16. The worth of the position after a run is its worth before plus
    the gains of the price moves made while shares were held; trades,
    refreshes and lifecycle calls add nothing.  So a refresh after a run
    from the initial state reports a [portfolio_value] of 10000 plus
    those gains and a [total_pl] equal to them. *)
Theorem profit_is_sum_of_gains (cs : list call) (now1 now2 : string) :
  let s := run cs init in
  let b := get_state (step (CallUpdateState now1 now2) s) in
  worth s == 10000 + gains cs init /\
  portfolio_value b == 10000 + gains cs init /\
  total_pl b == gains cs init.
Proof.
  intros s b. subst b.
  assert (worth s == 10000 + gains cs init) as Hw.
  { unfold s. rewrite run_worth.
    assert (worth init == 10000) as -> by reflexivity. reflexivity. }
  split; [exact Hw|]. simpl.
  assert (initial_value s = 10000%Z) as Hiv by apply run_initial_value.
  destruct (update_state_total now1 now2 s) as [s' Hs'];
    [rewrite Hiv; discriminate|].
  rewrite Hs'. simpl. unfold get_state.
  destruct (update_state_snapshot _ _ _ _ Hs') as (Hpv & _ & Hpl & _).
  cbv zeta in Hpv, Hpl. rewrite Hpl, Hpv, Hiv. fold (worth s).
  rewrite Hw. split; [reflexivity|].
  change (inject_Z 10000) with 10000. ring.
Qed.

(** ** Reading the histories, continued *)

(** X17. With a negative limit [-k], [get_trades] and [get_performance]
    return their history without its [k] oldest records: nothing when
    the history holds at most [k]. *)
Theorem negative_limit_skips_oldest (limit : Z) (s : bot) :
  (limit < 0)%Z ->
  let k := Z.to_nat (- limit) in
  get_trades (Some limit) s = drop k (trade_history s) /\
  get_performance (Some limit) s = drop k (performance_history s) /\
  length (get_trades (Some limit) s) = (length (trade_history s) - k)%nat /\
  ((length (trade_history s) <= k)%nat -> get_trades (Some limit) s = []).
Proof.
  intros Hneg k. subst k. unfold get_trades, get_performance. simpl.
  rewrite !py_slice_neg by assumption.
  split; [reflexivity|]. split; [reflexivity|]. split.
  - apply length_drop.
  - apply drop_ge.
Qed.

Lemma negative_limit_skips_oldest_witness :
  length (get_trades (Some (-1)%Z)
            (run [CallExecute "t0" 1234 1; CallExecute "t1" 1235 2] init))
  = 1%nat
  /\ tr_action <$> get_trades (Some (-1)%Z)
                     (run [CallExecute "t0" 1234 1; CallExecute "t1" 1235 2]
                        init) = [SELL].
Proof.
  assert (-1 < 0)%Z as Hneg by reflexivity.
  destruct (negative_limit_skips_oldest (-1)
              (run [CallExecute "t0" 1234 1; CallExecute "t1" 1235 2] init)
              Hneg) as (Ht & _ & Hlen & _).
  split.
  - rewrite Hlen. reflexivity.
  - rewrite Ht. reflexivity.
Defined.
(** ** Sample runs *)

(** One iteration of the loop on a started bot: the price moves up by
    1%, the draw 0.1 makes the policy buy, and the refresh records the
    new position. *)
Example first_iteration :
  let s0 := snd (start (snd (initialize {[ "ticker" := CfgStr "AAPL" ]} init))) in
  let i := {| change_percent := 0.01; decision_draw := 0.1;
              order_draw := 4711; trade_time := "t0";
              update_time := "t1"; sample_time := "t2" |} in
  let s := trading_loop_step i s0 in
  shares_held s = 53%Z
  /\ cash s == 632.25
  /\ portfolio_value (get_state s) == 10000
  /\ st_status (get_state s) = active
  /\ last_action (get_state s) = BUY
  /\ order_id <$> get_trades None s = ["mock-4711"]
  /\ length (get_performance None s) = 1%nat.
Proof.
  vm_compute. repeat split.
Qed.

(** 1001 refreshes: the sample stamped "first" is gone, the 1000 stamped
    "later" remain. *)
Example first_sample_evicted :
  let cs := CallUpdateState "u" "first"
            :: replicate 1000 (CallUpdateState "u" "later") in
  let kept := get_performance (Some 1000%Z) (run cs init) in
  length (samples cs init) = 1001%nat
  /\ length kept = 1000%nat
  /\ forallb (fun x => bool_decide (sm_timestamp x = "later")) kept = true.
Proof.
  vm_compute. repeat split.
Qed.
